(** * OmniAI: a shallow embedding of the RAG chatbot backend

    The development follows the Python modules of [src/backend]:
    - [Memory]        : memory.py        (sliding-window history, analytics log)
    - [LlmEngine]     : llm_engine.py    (prompt builder, completion client, fallback)
    - [Database], [KnowledgeBase] : database.py, knowledge_base.py (the two loaders)
    - [RagEngine]     : rag_engine.py    (snapshot persistence, top-k retrieval)
    - [App]           : app.py           (the /chat orchestrator)

    Conventions.  Python dictionaries used as maps are [gmap]s, Python
    lists are [list]s, a value that may be [None] is an [option].  Code that
    can raise returns an [outcome]; a [try/except] is a [match] on it.
    What the program reads from the outside world (wall clock, uuid
    generator, HTTP service, files, the embedding model) is a parameter of
    the section that needs it. *)

From stdpp Require Import gmap strings list fin_maps pretty sorting.
From Stdlib Require Import Ascii ZArith QArith Lia Sorted Permutation.
Close Scope Q_scope.
Open Scope string_scope.
Open Scope nat_scope.
Open Scope list_scope.
Open Scope stdpp_scope.

(** ** Python preliminaries *)

Module Py.

(** Characters that have no plain spelling inside a string literal. *)
Definition nl : string := String (ascii_of_nat 10) EmptyString.

Definition dquote : string := String (ascii_of_nat 34) EmptyString.

(** [sep.join(l)] *)
Definition join (sep : string) (l : list string) : string := String.concat sep l.

(** [l[start:]] for a Python integer [start]: a negative start counts
    from the end and is clamped at the front, a start past the end gives
    the empty list.  [l[-0:]] is [l[0:]], the whole list. *)
Definition slice_from {A} (start : Z) (l : list A) : list A :=
  let n := Z.of_nat (length l) in
  let s := if (start <? 0)%Z then Z.max 0 (n + start) else Z.min start n in
  drop (Z.to_nat s) l.

(** The result of running code that may raise: [Raised msg] carries
    [str(e)] of the exception. *)
Inductive outcome (A : Type) : Type :=
| Returned (a : A)
| Raised (msg : string).
Arguments Returned {A} a.
Arguments Raised {A} msg.

(** Python truthiness of an optional string: [None] and the empty string
    are falsy. *)
Definition truthy (s : option string) : bool :=
  match s with
  | None => false
  | Some EmptyString => false
  | Some (String _ _) => true
  end.

(** Upper-casing of the ASCII letters and stripping of ASCII white
    space.  [str.upper] and [str.strip] themselves are library code and
    enter the embedding as parameters; these two functions agree with
    them on ASCII text without control characters, and serve as
    instances in sample runs. *)
Definition upper_ascii (c : ascii) : ascii :=
  let n := nat_of_ascii c in
  if (97 <=? n) && (n <=? 122) then ascii_of_nat (n - 32) else c.

Fixpoint ascii_upper (s : string) : string :=
  match s with
  | EmptyString => EmptyString
  | String c s' => String (upper_ascii c) (ascii_upper s')
  end.

Definition is_space (c : ascii) : bool :=
  let n := nat_of_ascii c in
  (n =? 32) || ((9 <=? n) && (n <=? 13)).

Fixpoint lstrip (s : string) : string :=
  match s with
  | EmptyString => EmptyString
  | String c s' => if is_space c then lstrip s' else s
  end.

Fixpoint rstrip (s : string) : string :=
  match s with
  | EmptyString => EmptyString
  | String c s' =>
      match rstrip s' with
      | EmptyString => if is_space c then EmptyString else String c EmptyString
      | r => String c r
      end
  end.

Definition ascii_strip (s : string) : string := rstrip (lstrip s).

(** A Python dict with string keys and string values, as [json.load]
    gives for one FAQ or policy entry (a number stands by its [str]). *)
Abbreviation dict := (gmap string string).

(** [d.get(k, default)] *)
Definition get (d : dict) (k : string) (default : string) : string :=
  match d !! k with
  | Some v => v
  | None => default
  end.

(** A value stored in a document dict: a string, or a nested dict (the
    [metadata] entry). *)
Inductive value : Type :=
| Str (s : string)
| Dict (d : dict).

(** A document: a dict with string keys.  The loaders build it with the
    keys [id], [type], [category], [content], [metadata]; one read back
    from a snapshot file has whatever keys the file holds. *)
Abbreviation object := (gmap string value).

(** [d[k]], raising [KeyError(k)]; [str] of that exception is the key in
    single quotes. *)
Definition getitem (d : object) (k : string) : outcome value :=
  match d !! k with
  | Some v => Returned v
  | None => Raised ("'" +:+ k +:+ "'")
  end.

(** [s * n] *)
Fixpoint repeat_string (s : string) (n : nat) : string :=
  match n with
  | O => EmptyString
  | S n' => s +:+ repeat_string s n'
  end.

(** [os.path.join(a, b)] for a relative [b]. *)
Fixpoint ends_with_slash (s : string) : bool :=
  match s with
  | EmptyString => false
  | String c EmptyString => Ascii.eqb c (ascii_of_nat 47)
  | String _ s' => ends_with_slash s'
  end.

Definition path_join (a b : string) : string :=
  match a with
  | EmptyString => b
  | String _ _ => if ends_with_slash a then a +:+ b else a +:+ "/" +:+ b
  end.

(** A JSON file holding a list of entries, as the loaders see it:
    [os.path.exists] is false, or reading it raises, or [json.load]
    returns the entries.  The entries are flat: every field holds a
    string (or a number, standing by its [str]); an entry with a list or
    an object in a field is outside this model, and nothing proved here
    speaks of it. *)
Inductive json_file : Type :=
| Missing
| Unreadable
| Entries (l : list dict).

(** [metadata or {}] *)
Definition or_empty (d : option dict) : dict :=
  match d with
  | Some d => d
  | None => ∅
  end.

End Py.

(** ** memory.py *)

Module Memory.

(** A message of a session history: the dict built in [add_message]. *)
Record Message : Type := mkMessage {
  role : string;
  content : string;
  timestamp : string;
  metadata : Py.dict
}.

(** An analytics record: the dict built in [log_message]. *)
Record LogEntry : Type := mkLogEntry {
  log_session_id : string;
  log_role : string;
  log_content : string;
  log_timestamp : string;
  context_used : nat;
  processing_time : option Z;
  log_metadata : Py.dict
}.

(** [collections.deque(maxlen=n)]: the bound is fixed when the deque is
    created. *)
Record deque : Type := mkDeque {
  maxlen : nat;
  items : list Message
}.

(** [deque.append]: the element goes to the right end, and when that
    makes the deque longer than [maxlen] one element leaves at the left. *)
Definition deque_append (d : deque) (x : Message) : deque :=
  let l := items d ++ [x] in
  mkDeque (maxlen d) (if maxlen d <? length l then tail l else l).

(** The attributes of a [ConversationMemory] object. *)
Record ConversationMemory : Type := mkMemory {
  max_messages : nat;
  conversations : gmap string deque;
  analytics_log : list LogEntry
}.

(** [ConversationMemory.__init__] *)
Definition init (max_messages : nat) : ConversationMemory :=
  mkMemory max_messages ∅ [].

(** The global instance, [ConversationMemory(max_messages=10)]. *)
Definition conversation_memory : ConversationMemory := init 10.

(** The process state the memory operations run in: the shared memory
    object and the number of readings taken from the outside world so
    far.  The [n]-th reading of a clock or generator is the value of its
    oracle at [n]. *)
Record World : Type := mkWorld {
  ticks : nat;
  memory : ConversationMemory
}.

(** State passing over [World]. *)
Definition M (A : Type) : Type := World -> A * World.

Definition ret {A} (a : A) : M A := fun w => (a, w).

Definition bind {A B} (c : M A) (k : A -> M B) : M B :=
  fun w => let (a, w') := c w in k a w'.

Notation "x <- c ;; k" := (bind c (fun x => k))
  (at level 100, c at next level, right associativity).
Notation "c ;; k" := (bind c (fun _ => k))
  (at level 100, right associativity).

Definition get_memory : M ConversationMemory := fun w => (memory w, w).

Definition put_memory (m : ConversationMemory) : M unit :=
  fun w => (tt, mkWorld (ticks w) m).

(** One reading of an oracle. *)
Definition read {A} (oracle : nat -> A) : M A :=
  fun w => (oracle (ticks w), mkWorld (S (ticks w)) (memory w)).

Section WithClock.

(** [datetime.now().isoformat()] *)
Variable datetime_now : nat -> string.

(** [log_message]: one record appended to the analytics log. *)
Definition log_message (session_id role content : string) (context_used : nat)
    (processing_time : option Z) (metadata : option Py.dict) : M unit :=
  ts <- read datetime_now ;;
  m <- get_memory ;;
  let log_entry :=
    mkLogEntry session_id role content ts context_used processing_time
      (Py.or_empty metadata) in
  put_memory (mkMemory (max_messages m) (conversations m) (analytics_log m ++ [log_entry])).

(** [add_message] *)
Definition add_message (session_id role content : string)
    (metadata : option Py.dict) : M unit :=
  m <- get_memory ;;
  (match conversations m !! session_id with
   | Some _ => ret tt
   | None =>
       put_memory (mkMemory (max_messages m)
                     (<[session_id := mkDeque (max_messages m) []]> (conversations m))
                     (analytics_log m))
   end) ;;
  ts <- read datetime_now ;;
  let message := mkMessage role content ts (Py.or_empty metadata) in
  m <- get_memory ;;
  put_memory (mkMemory (max_messages m)
                (alter (fun d => deque_append d message) session_id (conversations m))
                (analytics_log m)) ;;
  log_message session_id role content 0 None metadata.

End WithClock.

(** [get_conversation_history] *)
Definition get_conversation_history (m : ConversationMemory) (session_id : string)
    : list Message :=
  match conversations m !! session_id with
  | None => []
  | Some d => items d
  end.

(** [get_last_n_messages]: [history[-n:] if history else []] *)
Definition get_last_n_messages (m : ConversationMemory) (session_id : string) (n : Z)
    : list Message :=
  let history := get_conversation_history m session_id in
  match history with
  | [] => []
  | _ :: _ => Py.slice_from (- n) history
  end.

Definition start_of_conversation : string := "This is the start of the conversation.".

Definition role_label (msg : Message) : string :=
  if String.eqb (role msg) "user" then "User" else "Assistant".

Definition format_line (msg : Message) : string :=
  role_label msg +:+ ": " +:+ content msg.

(** [format_history_for_prompt] *)
Definition format_history_for_prompt (m : ConversationMemory) (session_id : string)
    (include_last_n : Z) : string :=
  let messages := get_last_n_messages m session_id include_last_n in
  match messages with
  | [] => start_of_conversation
  | _ :: _ => Py.join Py.nl ("Previous conversation:" :: map format_line messages)
  end.

(** [clear_session] *)
Definition clear_session (m : ConversationMemory) (session_id : string)
    : ConversationMemory :=
  match conversations m !! session_id with
  | Some _ => mkMemory (max_messages m) (delete session_id (conversations m)) (analytics_log m)
  | None => m
  end.

(** [get_all_sessions], as a set: the order of the keys is not modelled. *)
Definition get_all_sessions (m : ConversationMemory) : gset string :=
  dom (conversations m).

(** The result of [get_analytics_summary]. *)
Record AnalyticsSummary : Type := mkSummary {
  analytics_total_messages : nat;
  analytics_user_messages : nat;
  analytics_assistant_messages : nat
}.

Definition count_role (r : string) (log : list LogEntry) : nat :=
  length (filter (fun e => log_role e = r) log).

(** [get_analytics_summary] *)
Definition get_analytics_summary (m : ConversationMemory) : AnalyticsSummary :=
  mkSummary (length (analytics_log m))
            (count_role "user" (analytics_log m))
            (count_role "assistant" (analytics_log m)).

Section WithDurations.

(** [(datetime.fromisoformat(b) - datetime.fromisoformat(a)).total_seconds()]
    for two timestamps written by [isoformat]. *)
Context {duration : Type}.
Variable total_seconds : string -> string -> duration.

(** The dict returned by [get_session_stats]: the one for a session
    without messages (all counts 0, start and duration [None]), or the
    one with the counts, the first timestamp and the duration. *)
Inductive SessionStats : Type :=
| NoMessages
| Stats (total_messages user_messages assistant_messages : nat)
        (session_start : string) (session_duration_seconds : duration).

Definition count_messages (r : string) (history : list Message) : nat :=
  length (filter (fun msg => role msg = r) history).

(** [get_session_stats] *)
Definition get_session_stats (m : ConversationMemory) (session_id : string)
    : SessionStats :=
  let history := get_conversation_history m session_id in
  match history, last history with
  | first :: _, Some final =>
      Stats (length history)
            (count_messages "user" history)
            (count_messages "assistant" history)
            (timestamp first)
            (total_seconds (timestamp first) (timestamp final))
  | _, _ => NoMessages
  end.

(** The dict returned by [export_conversation]. *)
Record Export : Type := mkExport {
  export_session_id : string;
  export_messages : list Message;
  export_stats : SessionStats
}.

(** [export_conversation] *)
Definition export_conversation (m : ConversationMemory) (session_id : string) : Export :=
  mkExport session_id (get_conversation_history m session_id)
    (get_session_stats m session_id).

(** The [total_messages] entry of the stats. *)
Definition stats_total (s : SessionStats) : nat :=
  match s with
  | NoMessages => 0
  | Stats total _ _ _ _ => total
  end.

Definition stats_by_role (s : SessionStats) : nat * nat :=
  match s with
  | NoMessages => (0, 0)
  | Stats _ user assistant _ _ => (user, assistant)
  end.

End WithDurations.

End Memory.

(** ** llm_engine.py *)

Module LlmEngine.

(** The attributes of an [LLMEngine] object; an attribute that is [None]
    is [None] here. *)
Record LLMEngine : Type := mkEngine {
  provider : string;
  api_key : option string;
  model : option string;
  api_url : option string
}.

Definition business_prompt : string :=
  "You are a business professional assistant. Provide detailed, structured, precise answers "
  +:+ "for business-related queries. Be professional, concise, and actionable.".

Definition education_prompt : string :=
  "You are an educational tutor assistant. Explain concepts clearly, give examples, and "
  +:+ "help the user understand step by step.".

Definition default_prompt : string :=
  "You are GROK — an intelligent, witty, professional assistant with deep knowledge in "
  +:+ "AI, education, coding, reasoning, psychology, technology, and research. "
  +:+ "Always give detailed, structured, clear, and smart answers. "
  +:+ "Never behave like a simple customer-support bot.".

(** [build_prompt] *)
Definition build_prompt (user_query context : string)
    (conversation_history : option string) (mode : string) : string * string :=
  let system_prompt :=
    if String.eqb mode "business" then business_prompt
    else if String.eqb mode "education" then education_prompt
    else default_prompt in
  let user_prompt := EmptyString in
  let user_prompt :=
    if Py.truthy conversation_history
    then user_prompt +:+ "Conversation History:" +:+ Py.nl
           +:+ default EmptyString conversation_history +:+ Py.nl
    else user_prompt in
  let user_prompt :=
    if Py.truthy (Some context)
    then user_prompt +:+ "Context:" +:+ Py.nl +:+ context +:+ Py.nl
    else user_prompt in
  let user_prompt := user_prompt +:+ "User Question:" +:+ Py.nl +:+ user_query +:+ Py.nl in
  (system_prompt, user_prompt).

(** The dict returned by [ask_llm]; the keys [model] and [provider] are
    present on success only. *)
Record LlmResult : Type := mkResult {
  success : bool;
  response : string;
  error : option string;
  result_model : option string;
  result_provider : option string
}.

Definition failure (msg : string) : LlmResult :=
  mkResult false EmptyString (Some msg) None None.

(** The request sent by [requests.post]. *)
Record Request : Type := mkRequest {
  url : option string;
  authorization : string;
  payload_model : option string;
  messages : list (string * string);
  temperature : Q;
  max_tokens : Z
}.

(** What [requests.post] does: it answers with a status code and a body,
    times out, or raises something else.  [content] is the outcome of
    reading [choices[0].message.content] off the parsed body. *)
Inductive PostResult : Type :=
| Replied (status_code : Z) (text : string) (content : Py.outcome string)
| TimedOut
| Failed (msg : string).

Section WithService.

(** [str.upper] and [str.strip]. *)
Variable str_upper : string -> string.
Variable str_strip : string -> string.

Variable requests_post : Request -> PostResult.

(** [ask_llm] *)
Definition ask_llm (self : LLMEngine) (prompt_tuple : string * string)
    (temperature : Q) (max_tokens : Z) : LlmResult :=
  let (system_prompt, user_prompt) := prompt_tuple in
  if negb (Py.truthy (api_key self)) then
    failure (str_upper (provider self) +:+ "_API_KEY not configured")
  else
    let request :=
      mkRequest (api_url self)
        ("Bearer " +:+ default "None" (api_key self))
        (model self)
        [("system", system_prompt); ("user", user_prompt)]
        temperature max_tokens in
    match requests_post request with
    | Replied status_code text content =>
        if (status_code =? 200)%Z then
          match content with
          | Py.Returned c =>
              mkResult true (str_strip c) None (model self) (Some (provider self))
          | Py.Raised e => failure ("LLM Error: " +:+ e)
          end
        else failure ("API Error " +:+ pretty status_code +:+ ": " +:+ text)
    | TimedOut => failure "Request timed out. Please try again."
    | Failed e => failure ("LLM Error: " +:+ e)
    end.

(** [generate_response]; [ask_llm] is called with its default
    [max_tokens=500]. *)
Definition generate_response (self : LLMEngine) (user_query context : string)
    (conversation_history : option string) (temperature : Q) (mode : string)
    : LlmResult :=
  let prompt_tuple := build_prompt user_query context conversation_history mode in
  ask_llm self prompt_tuple temperature 500.

End WithService.

(** [get_fallback_response] *)
Definition get_fallback_response (user_query : string) : string :=
  Py.join Py.nl [
    "I apologize, but I'm having trouble processing your request right now.";
    EmptyString;
    "However, I can help you with:";
    "* Account management questions";
    "* Billing and payment inquiries";
    "* Technical support issues";
    "* Subscription and plan information";
    "* Privacy and security questions";
    EmptyString;
    "Your question was: " +:+ Py.dquote +:+ user_query +:+ Py.dquote +:+ ".";
    "Please try rephrasing your question or contact support." ].

End LlmEngine.

(** ** database.py *)

Module Database.

Record KnowledgeBase : Type := mkKB {
  data_dir : string;
  faqs : list Py.dict;
  policies : list Py.dict;
  all_documents : list Py.object
}.

(** [KnowledgeBase.__init__] *)
Definition init (data_dir : string) : KnowledgeBase := mkKB data_dir [] [] [].

Definition faq_document (faq : Py.dict) : Py.object :=
  <["id" := Py.Str ("faq_" +:+ Py.get faq "id" "NA")]>
  (<["type" := Py.Str "faq"]>
  (<["category" := Py.Str (Py.get faq "category" "General")]>
  (<["content" := Py.Str ("Question: " +:+ Py.get faq "question" EmptyString +:+ Py.nl
                          +:+ "Answer: " +:+ Py.get faq "answer" EmptyString)]>
  (<["metadata" := Py.Dict
       (<["question" := Py.get faq "question" EmptyString]>
       (<["answer" := Py.get faq "answer" EmptyString]>
       (<["category" := Py.get faq "category" EmptyString]> ∅)))]> ∅)))).

Definition policy_document (policy : Py.dict) : Py.object :=
  <["id" := Py.Str ("policy_" +:+ Py.get policy "id" "NA")]>
  (<["type" := Py.Str "policy"]>
  (<["category" := Py.Str (Py.get policy "category" "General")]>
  (<["content" := Py.Str ("Title: " +:+ Py.get policy "title" EmptyString +:+ Py.nl
                          +:+ "Category: " +:+ Py.get policy "category" EmptyString +:+ Py.nl
                          +:+ "Content: " +:+ Py.get policy "content" EmptyString)]>
  (<["metadata" := Py.Dict
       (<["title" := Py.get policy "title" EmptyString]>
       (<["category" := Py.get policy "category" EmptyString]>
       (<["content" := Py.get policy "content" EmptyString]> ∅)))]> ∅)))).

(** [_prepare_documents] *)
Definition _prepare_documents (self : KnowledgeBase) : list Py.object :=
  map faq_document (faqs self) ++ map policy_document (policies self).

Section WithFiles.

(** The files on disk, by path. *)
Variable fs : string -> Py.json_file.

(** [load_data]: the [try] block assigns [self.faqs], [self.policies] and
    [self.all_documents] one after the other; whatever raises on the way
    is caught and answered with [False]. *)
Definition load_data (self : KnowledgeBase) : bool * KnowledgeBase :=
  let faqs_path := Py.path_join (data_dir self) "faqs.json" in
  match fs faqs_path with
  | Py.Missing => (false, self)
  | Py.Unreadable => (false, self)
  | Py.Entries loaded_faqs =>
      let self := mkKB (data_dir self) loaded_faqs (policies self) (all_documents self) in
      let policies_path := Py.path_join (data_dir self) "policies.json" in
      match fs policies_path with
      | Py.Missing => (false, self)
      | Py.Unreadable => (false, self)
      | Py.Entries loaded_policies =>
          let self := mkKB (data_dir self) (faqs self) loaded_policies (all_documents self) in
          let self := mkKB (data_dir self) (faqs self) (policies self) (_prepare_documents self) in
          (true, self)
      end
  end.

End WithFiles.

(** [get_all_documents] *)
Definition get_all_documents (self : KnowledgeBase) : list Py.object := all_documents self.

(** The loop of [get_document_by_id]: the first document whose [id]
    equals [doc_id]; reading the [id] of a document without one raises
    [KeyError], and an [id] that is not a string equals no string. *)
Fixpoint find_by_id (docs : list Py.object) (doc_id : string)
    : Py.outcome (option Py.object) :=
  match docs with
  | [] => Py.Returned None
  | doc :: rest =>
      match Py.getitem doc "id" with
      | Py.Raised e => Py.Raised e
      | Py.Returned (Py.Str s) =>
          if String.eqb s doc_id then Py.Returned (Some doc) else find_by_id rest doc_id
      | Py.Returned (Py.Dict _) => find_by_id rest doc_id
      end
  end.

(** [get_document_by_id] *)
Definition get_document_by_id (self : KnowledgeBase) (doc_id : string)
    : Py.outcome (option Py.object) :=
  find_by_id (all_documents self) doc_id.

End Database.

(** ** knowledge_base.py *)

Module KnowledgeBase.

Record KnowledgeBase : Type := mkKB {
  data_dir : string;
  faqs : list Py.dict;
  policies : list Py.dict;
  all_documents : list Py.object
}.

(** [KnowledgeBase.__init__] *)
Definition init (data_dir : string) : KnowledgeBase := mkKB data_dir [] [] [].

(** Here [metadata] is the source entry itself. *)
Definition faq_document (faq : Py.dict) : Py.object :=
  <["id" := Py.Str ("faq_" +:+ Py.get faq "id" "NA")]>
  (<["type" := Py.Str "faq"]>
  (<["category" := Py.Str (Py.get faq "category" "General")]>
  (<["content" := Py.Str ("Question: " +:+ Py.get faq "question" EmptyString +:+ Py.nl
                          +:+ "Answer: " +:+ Py.get faq "answer" EmptyString)]>
  (<["metadata" := Py.Dict faq]> ∅)))).

Definition policy_document (policy : Py.dict) : Py.object :=
  <["id" := Py.Str ("policy_" +:+ Py.get policy "id" "NA")]>
  (<["type" := Py.Str "policy"]>
  (<["category" := Py.Str (Py.get policy "category" "General")]>
  (<["content" := Py.Str ("Title: " +:+ Py.get policy "title" EmptyString +:+ Py.nl
                          +:+ "Category: " +:+ Py.get policy "category" EmptyString +:+ Py.nl
                          +:+ "Content: " +:+ Py.get policy "content" EmptyString)]>
  (<["metadata" := Py.Dict policy]> ∅)))).

(** [_prepare_documents] *)
Definition _prepare_documents (self : KnowledgeBase) : list Py.object :=
  map faq_document (faqs self) ++ map policy_document (policies self).

Section WithFiles.

Variable fs : string -> Py.json_file.

(** [load_data], the same statements as in database.py. *)
Definition load_data (self : KnowledgeBase) : bool * KnowledgeBase :=
  let faqs_path := Py.path_join (data_dir self) "faqs.json" in
  match fs faqs_path with
  | Py.Missing => (false, self)
  | Py.Unreadable => (false, self)
  | Py.Entries loaded_faqs =>
      let self := mkKB (data_dir self) loaded_faqs (policies self) (all_documents self) in
      let policies_path := Py.path_join (data_dir self) "policies.json" in
      match fs policies_path with
      | Py.Missing => (false, self)
      | Py.Unreadable => (false, self)
      | Py.Entries loaded_policies =>
          let self := mkKB (data_dir self) (faqs self) loaded_policies (all_documents self) in
          let self := mkKB (data_dir self) (faqs self) (policies self) (_prepare_documents self) in
          (true, self)
      end
  end.

End WithFiles.

(** [get_all_documents] *)
Definition get_all_documents (self : KnowledgeBase) : list Py.object := all_documents self.

(** The global instance [kb = KnowledgeBase()]. *)
Definition kb : KnowledgeBase := init "./data".

End KnowledgeBase.

(** ** rag_engine.py *)

Module RagEngine.

Section WithModel.

(** Embedding vectors and similarity scores.  The sentence encoder,
    scikit-learn's [cosine_similarity] and NumPy's [argsort] are library
    code: the vector and score types, the similarity of two vectors, the
    positions of an array of scores in sorted order and the rendering of
    a score by the format [.2%] are parameters. *)
Context {embedding score : Type}.
Variable cosine_similarity : embedding -> embedding -> score.
Variable argsort : list score -> list nat.
Variable format_percent : score -> string.

(** [repr] of a dict, used when a dict is interpolated in an f-string,
    and [str.upper]. *)
Variable repr_dict : Py.dict -> string.
Variable str_upper : string -> string.

(** The attributes of a [RAGEngine] object.  [model] is the loaded
    encoder ([model.encode] on one text), [None] before [initialize]. *)
Record RAGEngine : Type := mkRAG {
  model_name : string;
  model : option (string -> embedding);
  embeddings : option (list embedding);
  documents : list Py.object
}.

(** [RAGEngine.__init__] *)
Definition init (model_name : string) : RAGEngine := mkRAG model_name None None [].

(** One entry of the list returned by [retrieve_context]. *)
Record RetrievalResult : Type := mkRetrieved {
  document : Py.object;
  result_score : score;
  rank : nat
}.

(** *** Snapshot persistence *)

(** The dict pickled by [_save_vector_store]. *)
Record Snapshot : Type := mkSnapshot {
  snapshot_embeddings : option (list embedding);
  snapshot_documents : list Py.object;
  snapshot_model_name : string
}.

(** What [pickle.load] gives back, as far as [_load_vector_store] reads
    it: the entries under the three keys, each [None] when the key is
    absent (for [model_name] also when the entry is not a string). *)
Record Loaded : Type := mkLoaded {
  loaded_model_name : option string;
  loaded_embeddings : option (option (list embedding));
  loaded_documents : option (list Py.object)
}.

(** A snapshot as [pickle.load] returns it: all three keys present. *)
Definition complete (data : Snapshot) : Loaded :=
  mkLoaded (Some (snapshot_model_name data)) (Some (snapshot_embeddings data))
    (Some (snapshot_documents data)).

(** The bytes of a file, with [pickle.dump] and [pickle.load]; a load
    that raises is [None]. *)
Context {bytes : Type}.
Variable pickle_dumps : Snapshot -> bytes.
Variable pickle_loads : bytes -> option Loaded.

(** [_save_vector_store]: the new content of [vectors.pkl]. *)
Definition _save_vector_store (self : RAGEngine) : option bytes :=
  let data := mkSnapshot (embeddings self) (documents self) (model_name self) in
  Some (pickle_dumps data).

(** [_load_vector_store], given the content of [vectors.pkl] ([None]
    when the file does not exist).  The [try] block reads the model name,
    then assigns [self.embeddings], then [self.documents]; a missing key
    raises [KeyError], which is answered with [False], the assignment
    already made staying. *)
Definition _load_vector_store (self : RAGEngine) (file : option bytes)
    : bool * RAGEngine :=
  match file with
  | None => (false, self)
  | Some b =>
      match pickle_loads b with
      | None => (false, self)
      | Some data =>
          match loaded_model_name data with
          | None => (false, self)
          | Some name =>
              if negb (String.eqb name (model_name self)) then (false, self)
              else
                match loaded_embeddings data with
                | None => (false, self)
                | Some stored =>
                    let self := mkRAG (model_name self) (model self) stored
                                  (documents self) in
                    match loaded_documents data with
                    | None => (false, self)
                    | Some docs =>
                        (true, mkRAG (model_name self) (model self) (embeddings self) docs)
                    end
                end
          end
      end
  end.

(** *** Retrieval *)

(** The loop that fills [results]; an index outside [documents] or
    [similarities] raises [IndexError], which is [None] here. *)
Fixpoint collect (documents : list Py.object) (similarities : list score)
    (top_indices : list nat) (results : list RetrievalResult)
    : option (list RetrievalResult) :=
  match top_indices with
  | [] => Some results
  | idx :: rest =>
      match documents !! idx, similarities !! idx with
      | Some doc, Some s =>
          collect documents similarities rest
            (results ++ [mkRetrieved doc s (length results + 1)])
      | _, _ => None
      end
  end.

(** [similarities = cosine_similarity(query_embedding, self.embeddings)[0]] *)
Definition similarities_of (encode : string -> embedding) (stored : list embedding) (query : string)
    : list score :=
  map (cosine_similarity (encode query)) stored.

(** [top_indices = np.argsort(similarities)[-top_k:][::-1]] *)
Definition top_indices_of (similarities : list score) (top_k : Z) : list nat :=
  reverse (Py.slice_from (- top_k) (argsort similarities)).

(** [retrieve_context]: every exception of the [try] block is answered
    with the empty list. *)
Definition retrieve_context (self : RAGEngine) (query : string) (top_k : Z)
    : list RetrievalResult :=
  match embeddings self with
  | None => []
  | Some [] => []
  | Some (v :: vs) =>
      match model self with
      | None => []
      | Some encode =>
          let similarities := similarities_of encode (v :: vs) query in
          let top_indices := top_indices_of similarities top_k in
          match collect (documents self) similarities top_indices [] with
          | Some results => results
          | None => []
          end
      end
  end.

(** [str(x)] of a document value inside an f-string. *)
Definition str_value (v : Py.value) : string :=
  match v with
  | Py.Str s => s
  | Py.Dict d => repr_dict d
  end.

(** The five lines [format_context] appends for the [i]-th result. *)
Definition format_item (i : nat) (item : RetrievalResult) : Py.outcome (list string) :=
  let doc := document item in
  match Py.getitem doc "type" with
  | Py.Raised e => Py.Raised e
  | Py.Returned (Py.Dict _) => Py.Raised "'dict' object has no attribute 'upper'"
  | Py.Returned (Py.Str ty) =>
      match Py.getitem doc "category" with
      | Py.Raised e => Py.Raised e
      | Py.Returned category =>
          match Py.getitem doc "content" with
          | Py.Raised e => Py.Raised e
          | Py.Returned content =>
              Py.Returned [
                Py.nl +:+ "[Source " +:+ pretty i +:+ "] (Relevance: "
                  +:+ format_percent (result_score item) +:+ ")";
                "Type: " +:+ str_upper ty;
                "Category: " +:+ str_value category;
                "Content: " +:+ str_value content;
                Py.repeat_string "-" 80 ]
          end
      end
  end.

Fixpoint format_items (i : nat) (items : list RetrievalResult) (ctx : list string)
    : Py.outcome (list string) :=
  match items with
  | [] => Py.Returned ctx
  | item :: rest =>
      match format_item i item with
      | Py.Raised e => Py.Raised e
      | Py.Returned lines => format_items (S i) rest (ctx ++ lines)
      end
  end.

(** [format_context] *)
Definition format_context (retrieved_docs : list RetrievalResult) : Py.outcome string :=
  match retrieved_docs with
  | [] => Py.Returned "No relevant information found."
  | _ :: _ =>
      match format_items 1 retrieved_docs ["📚 Relevant Information:" +:+ Py.nl] with
      | Py.Raised e => Py.Raised e
      | Py.Returned ctx => Py.Returned (Py.join Py.nl ctx)
      end
  end.

(** [get_relevant_context] *)
Definition get_relevant_context (self : RAGEngine) (query : string) (top_k : Z)
    : Py.outcome (string * list RetrievalResult) :=
  let retrieved := retrieve_context self query top_k in
  match format_context retrieved with
  | Py.Raised e => Py.Raised e
  | Py.Returned formatted => Py.Returned (formatted, retrieved)
  end.

End WithModel.

Section Initialize.

Context {embedding bytes : Type}.

(** [SentenceTransformer(model_name)]: the loaded model, given by its
    [encode] on one text, unless loading raises; and [model.encode] on a
    list of values, which is library code on whatever the list holds. *)
Variable SentenceTransformer : string -> Py.outcome (string -> embedding).
Variable encode_texts : (string -> embedding) -> list Py.value -> Py.outcome (list embedding).

Variable fs : string -> Py.json_file.
Variable pickle_dumps : @Snapshot embedding -> bytes.
Variable pickle_loads : bytes -> option (@Loaded embedding).

(** [[doc["content"] for doc in self.documents]] *)
Fixpoint contents (docs : list Py.object) : Py.outcome (list Py.value) :=
  match docs with
  | [] => Py.Returned []
  | doc :: rest =>
      match Py.getitem doc "content" with
      | Py.Raised e => Py.Raised e
      | Py.Returned v =>
          match contents rest with
          | Py.Raised e => Py.Raised e
          | Py.Returned vs => Py.Returned (v :: vs)
          end
      end
  end.

(** [_build_vector_store] *)
Definition _build_vector_store (self : RAGEngine) : Py.outcome (@RAGEngine embedding) :=
  match documents self with
  | [] => Py.Returned (mkRAG (model_name self) (model self) (Some []) (documents self))
  | _ :: _ =>
      match contents (documents self) with
      | Py.Raised e => Py.Raised e
      | Py.Returned texts =>
          match model self with
          | None => Py.Raised "'NoneType' object has no attribute 'encode'"
          | Some m =>
              match encode_texts m texts with
              | Py.Raised e => Py.Raised e
              | Py.Returned vectors =>
                  Py.Returned (mkRAG (model_name self) (model self) (Some vectors)
                                 (documents self))
              end
          end
      end
  end.

(** [initialize], on the engine, its knowledge base and the content of
    [vectors.pkl]: the answer, and the three afterwards.  Whatever
    raises inside is answered with [False], the assignments made until
    then staying. *)
Definition initialize (self : RAGEngine) (kb : Database.KnowledgeBase)
    (file : option bytes)
    : bool * (@RAGEngine embedding * Database.KnowledgeBase * option bytes) :=
  match SentenceTransformer (model_name self) with
  | Py.Raised _ => (false, (self, kb, file))
  | Py.Returned m =>
      let self := mkRAG (model_name self) (Some m) (embeddings self) (documents self) in
      let (ok, kb) := Database.load_data fs kb in
      if negb ok then (false, (self, kb, file))
      else
        let self := mkRAG (model_name self) (model self) (embeddings self)
                      (Database.get_all_documents kb) in
        let (loaded, self) := _load_vector_store pickle_loads self file in
        if loaded then (true, (self, kb, file))
        else
          match _build_vector_store self with
          | Py.Raised _ => (false, (self, kb, file))
          | Py.Returned self => (true, (self, kb, _save_vector_store pickle_dumps self))
          end
  end.

End Initialize.

End RagEngine.

(** ** app.py *)

Module App.

Import Memory.

(** The request and response models of [/chat]. *)
Record ChatRequest : Type := mkRequest {
  message : string;
  session_id : option string;
  include_context : bool;
  top_k : Z;
  mode : string
}.

Record ChatResponse : Type := mkResponse {
  success : bool;
  response : string;
  response_session_id : string;
  processing_time : Z;
  context_used : nat;
  error : option string
}.

Section WithServices.

Context {embedding score : Type}.
Variable cosine_similarity : embedding -> embedding -> score.
Variable argsort : list score -> list nat.
Variable format_percent : score -> string.
Variable repr_dict : Py.dict -> string.
Variable str_upper : string -> string.
Variable str_strip : string -> string.

(** The global objects [rag_engine] and [llm_engine], which [chat] only
    reads, and the completion service behind [llm_engine]. *)
Variable rag_engine : @RagEngine.RAGEngine embedding.
Variable llm_engine : LlmEngine.LLMEngine.
Variable requests_post : LlmEngine.Request -> LlmEngine.PostResult.

(** The outside world: [time.time()] in milliseconds (so that rounding
    a difference to three decimals of a second changes nothing),
    [datetime.now().isoformat()] and [str(uuid.uuid4())]. *)
Variable time_time : nat -> Z.
Variable datetime_now : nat -> string.
Variable uuid4 : nat -> string.

(** Step 2 of [chat]: the context string and the retrieved documents. *)
Definition retrieve (request : ChatRequest)
    : Py.outcome (string * list (@RagEngine.RetrievalResult score)) :=
  if include_context request then
    RagEngine.get_relevant_context cosine_similarity argsort format_percent repr_dict
      str_upper rag_engine (message request) (top_k request)
  else Py.Returned (EmptyString, []).

(** Step 3 of [chat]. *)
Definition generate (request : ChatRequest) (history context_str : string)
    : LlmEngine.LlmResult :=
  LlmEngine.generate_response str_upper str_strip requests_post llm_engine
    (message request) context_str (Some history) (4 # 10)%Q (mode request).

Definition bot_response_of (request : ChatRequest) (llm_result : LlmEngine.LlmResult)
    : string :=
  if negb (LlmEngine.success llm_result)
  then LlmEngine.get_fallback_response (message request)
  else LlmEngine.response llm_result.

(** The reply for a request whose retrieval gave [context_str], in a
    memory [m]: steps 1, 3 and the choice of the response body. *)
Definition reply (request : ChatRequest) (session_id : string) (m : ConversationMemory)
    (context_str : string) : string :=
  bot_response_of request
    (generate request (format_history_for_prompt m session_id 5) context_str).

(** The body of the [try] block of [chat]. *)
Definition pipeline (request : ChatRequest) (session_id : string) (t0 : Z)
    : M (Py.outcome ChatResponse) :=
  m <- get_memory ;;
  let history := format_history_for_prompt m session_id 5 in
  match retrieve request with
  | Py.Raised e => ret (Py.Raised e)
  | Py.Returned (context_str, docs) =>
      let llm_result := generate request history context_str in
      let bot_response := bot_response_of request llm_result in
      add_message datetime_now session_id "user" (message request) None ;;
      add_message datetime_now session_id "assistant" bot_response None ;;
      log_message datetime_now session_id "user" (message request) (length docs) None None ;;
      t <- read time_time ;;
      log_message datetime_now session_id "assistant" bot_response (length docs)
        (Some (t - t0)%Z) None ;;
      t <- read time_time ;;
      ret (Py.Returned (mkResponse true bot_response session_id (t - t0)%Z (length docs) None))
  end.

(** [chat] *)
Definition chat (request : ChatRequest) : M ChatResponse :=
  t0 <- read time_time ;;
  session_id <- (match session_id request with
                 | Some (String c s) => ret (String c s)
                 | _ => read uuid4
                 end) ;;
  r <- pipeline request session_id t0 ;;
  match r with
  | Py.Returned resp => ret resp
  | Py.Raised e =>
      t <- read time_time ;;
      ret (mkResponse false "Internal error." session_id (t - t0)%Z 0 (Some e))
  end.

(** A run of [/chat] requests, one after the other. *)
Fixpoint chats (requests : list ChatRequest) : M (list ChatResponse) :=
  match requests with
  | [] => ret []
  | request :: rest =>
      resp <- chat request ;;
      resps <- chats rest ;;
      ret (resp :: resps)
  end.

End WithServices.

(** [DELETE /clear_session/{session_id}]: the memory afterwards and the
    message returned. *)
Definition clear_session (m : ConversationMemory) (session_id : string)
    : ConversationMemory * string :=
  (Memory.clear_session m session_id, "session cleared").

(** [GET /session/{session_id}]: the history, or the [HTTPException]
    with status 404 when it is empty. *)
Definition get_session (m : ConversationMemory) (session_id : string)
    : Py.outcome (list Message) :=
  match get_conversation_history m session_id with
  | [] => Py.Raised "404: Not found"
  | h => Py.Returned h
  end.

End App.

(** * Specification vocabulary *)

Module Spec.

(** The last [n] elements of a list (all of it when it is shorter). *)
Definition last_n {A} (n : nat) (l : list A) : list A := drop (length l - n) l.

(** [needle] occurs in [s]. *)
Definition substring (needle s : string) : Prop :=
  exists before after, s = before +:+ needle +:+ after.

(** One call of [add_message]. *)
Record Call : Type := mkCall {
  call_session : string;
  call_role : string;
  call_content : string;
  call_metadata : option Py.dict
}.

Section WithClock.

Variable datetime_now : nat -> string.

(** A sequence of [add_message] calls, in order. *)
Fixpoint add_messages (calls : list Call) : Memory.M unit :=
  match calls with
  | [] => Memory.ret tt
  | c :: rest =>
      Memory.bind
        (Memory.add_message datetime_now (call_session c) (call_role c)
           (call_content c) (call_metadata c))
        (fun _ => add_messages rest)
  end.

(** The messages that a sequence of calls starting at reading [t] sends
    to one session, oldest first: each call takes two readings of the
    clock, the first of which stamps the message. *)
Fixpoint sent (t : nat) (calls : list Call) (session_id : string) : list Memory.Message :=
  match calls with
  | [] => []
  | c :: rest =>
      (if decide (call_session c = session_id)
       then [Memory.mkMessage (call_role c) (call_content c) (datetime_now t)
               (Py.or_empty (call_metadata c))]
       else [])
      ++ sent (t + 2) rest session_id
  end.

(** The analytics records that the same calls write, in order: the
    second reading of each call stamps its record. *)
Fixpoint logged (t : nat) (calls : list Call) : list Memory.LogEntry :=
  match calls with
  | [] => []
  | c :: rest =>
      Memory.mkLogEntry (call_session c) (call_role c) (call_content c)
        (datetime_now (S t)) 0 None (Py.or_empty (call_metadata c))
      :: logged (t + 2) rest
  end.

End WithClock.

(** The deque a message for [session_id] is appended to: the stored one,
    or the fresh one [add_message] creates. *)
Definition deque_of (m : Memory.ConversationMemory) (session_id : string) : Memory.deque :=
  default (Memory.mkDeque (Memory.max_messages m) [])
    (Memory.conversations m !! session_id).

(** The sliding-window invariant: every stored deque was created with
    the capacity of the memory and holds no more than that. *)
Definition bounded (m : Memory.ConversationMemory) : Prop :=
  forall session_id d, Memory.conversations m !! session_id = Some d ->
    Memory.maxlen d = Memory.max_messages m
    /\ length (Memory.items d) <= Memory.maxlen d.

(** The contract of [np.argsort] on an array of scores: the positions
    [0 .. n-1], each once, in an order in which the scores do not
    decrease.  The order of positions with equal scores is left open, as
    it is by NumPy's default sorting kind. *)
Definition ascending_by {score} (score_leb : score -> score -> bool)
    (similarities : list score) (i j : nat) : Prop :=
  forall a b, similarities !! i = Some a -> similarities !! j = Some b ->
    score_leb a b = true.

Definition permutes {score} (argsort : list score -> list nat) : Prop :=
  forall similarities, argsort similarities ≡ₚ seq 0 (length similarities).

Definition sorts {score} (score_leb : score -> score -> bool)
    (argsort : list score -> list nat) : Prop :=
  permutes argsort
  /\ forall similarities,
       StronglySorted (ascending_by score_leb similarities) (argsort similarities).

(** The scores [retrieve_context] computes for a query: one for each
    stored vector, in the order of the corpus. *)
Definition scores {embedding score} (cosine_similarity : embedding -> embedding -> score)
    (self : RagEngine.RAGEngine) (query : string) : list score :=
  match RagEngine.model self, RagEngine.embeddings self with
  | Some encode, Some stored => RagEngine.similarities_of cosine_similarity encode stored query
  | _, _ => []
  end.

(** The number of sorted pairs the slice [[-top_k:]] leaves out of [n]. *)
Definition cut (n : nat) (top_k : Z) : nat :=
  if (1 <=? top_k)%Z then n - Z.to_nat top_k else Nat.min (Z.to_nat (- top_k)) n.

(** The content a reply of the completion service delivers: the text of
    a 200 answer whose body could be read. *)
Definition delivered (r : LlmEngine.PostResult) : option string :=
  match r with
  | LlmEngine.Replied status_code _ (Py.Returned c) =>
      if (status_code =? 200)%Z then Some c else None
  | _ => None
  end.

(** A document with the keys [format_context] reads, [type] holding a
    string. *)
Definition well_formed (doc : Py.object) : Prop :=
  (exists ty, doc !! "type" = Some (Py.Str ty))
  /\ is_Some (doc !! "category")
  /\ is_Some (doc !! "content").

(** The [id] entry of a document. *)
Definition id_of (doc : Py.object) : option Py.value := doc !! "id".

(** One of the two collections read by [load_data] is not on disk. *)
Definition collection_absent (fs : string -> Py.json_file) (data_dir : string) : Prop :=
  fs (Py.path_join data_dir "faqs.json") = Py.Missing
  \/ fs (Py.path_join data_dir "policies.json") = Py.Missing.

(** The FAQ entries a failed load leaves in the store: the ones just
    read when the FAQ file could be read, the old ones otherwise. *)
Definition faqs_after_failure (fs : string -> Py.json_file) (data_dir : string)
    (old : list Py.dict) : list Py.dict :=
  match fs (Py.path_join data_dir "faqs.json") with
  | Py.Entries l => l
  | _ => old
  end.







End Spec.


(** Vocabulary for the orchestrator. *)

Module ChatSpec.

Section WithOracles.

Variable time_time : nat -> Z.
Variable datetime_now : nat -> string.
Variable uuid4 : nat -> string.

(** The session id [chat] works with, and the number of readings taken
    when the [try] block is entered: one for [t0], one more when the id
    is generated. *)
Definition session_of (request : App.ChatRequest) (w : Memory.World) : string * nat :=
  match App.session_id request with
  | Some (String c s) => (String c s, S (Memory.ticks w))
  | _ => (uuid4 (S (Memory.ticks w)), S (S (Memory.ticks w)))
  end.

(** The two messages a successful [chat] appends, the [try] block being
    entered at reading [n]. *)
Definition user_message (request : App.ChatRequest) (n : nat) : Memory.Message :=
  Memory.mkMessage "user" (App.message request) (datetime_now n) ∅.

Definition assistant_message (bot_response : string) (n : nat) : Memory.Message :=
  Memory.mkMessage "assistant" bot_response (datetime_now (n + 2)) ∅.

(** The four analytics records a successful [chat] appends: two written
    by [add_message], two by the explicit [log_message] calls. *)
Definition log_entries (request : App.ChatRequest) (session_id bot_response : string)
    (used : nat) (t0 : Z) (n : nat) : list Memory.LogEntry :=
  [ Memory.mkLogEntry session_id "user" (App.message request) (datetime_now (n + 1)) 0 None ∅;
    Memory.mkLogEntry session_id "assistant" bot_response (datetime_now (n + 3)) 0 None ∅;
    Memory.mkLogEntry session_id "user" (App.message request) (datetime_now (n + 4)) used None ∅;
    Memory.mkLogEntry session_id "assistant" bot_response (datetime_now (n + 6)) used
      (Some (time_time (n + 5) - t0)%Z) ∅ ].

End WithOracles.

(** The number of successful responses in a run. *)
Definition successes (resps : list App.ChatResponse) : nat :=
  length (filter (fun r => App.success r = true) resps).

(** The number of messages held in the histories of all sessions. *)
Definition stored_messages (m : Memory.ConversationMemory) : nat :=
  map_fold (fun _ d n => length (Memory.items d) + n) 0 (Memory.conversations m).

End ChatSpec.

(** * Sample data *)

(** A disk with a readable FAQ file and no policy file. *)
Definition faqs_only (entries : list Py.dict) (path : string) : Py.json_file :=
  if decide (path = "./data/faqs.json") then Py.Entries entries else Py.Missing.

Definition old_faq : Py.dict := <["id" := "1"]> (<["question" := "Old question"]> ∅).

Definition new_faq : Py.dict := <["id" := "2"]> (<["question" := "New question"]> ∅).


(** Instances of [argsort] for sample runs: a straight insertion sort of
    the (position, score) pairs, taking as argument the test it inserts
    by.  With [<=] equal scores stay in the order of their positions,
    with [<] they come out in the opposite order. *)
Section Insertion.

Context {score : Type}.
Variable before : score -> score -> bool.

Fixpoint insert_index (p : nat * score) (l : list (nat * score)) : list (nat * score) :=
  match l with
  | [] => [p]
  | q :: l' => if before (snd p) (snd q) then p :: l else q :: insert_index p l'
  end.

Definition enumerate (similarities : list score) : list (nat * score) :=
  zip (seq 0 (length similarities)) similarities.

Definition sorted_pairs (similarities : list score) : list (nat * score) :=
  foldr insert_index [] (enumerate similarities).

Definition insertion_argsort (similarities : list score) : list nat :=
  (sorted_pairs similarities).*1.

End Insertion.

(** A small index: two-dimensional integer vectors, scored by their dot
    product, and an encoder that sends every text to the first axis. *)
Definition dot (q v : Z * Z) : Z := (fst q * fst v + snd q * snd v)%Z.

Definition axis_encoder (text : string) : Z * Z := (1, 0)%Z.

Definition reset_faq : Py.dict :=
  <["question" := "How do I reset my password?"]> (<["answer" := "Use the reset link."]> ∅).

Definition change_faq : Py.dict :=
  <["question" := "How do I change my password?"]> (<["answer" := "Open the settings."]> ∅).

(** Two FAQ entries without an [id], embedded as the same vector. *)
Definition twin_engine : @RagEngine.RAGEngine (Z * Z) :=
  RagEngine.mkRAG "all-MiniLM-L6-v2" (Some axis_encoder)
    (Some [(1, 0)%Z; (1, 0)%Z])
    (Database._prepare_documents (Database.mkKB "./data" [reset_faq; change_faq] [] [])).

(** An engine that was never initialised. *)
Definition fresh_engine : @RagEngine.RAGEngine (Z * Z) := RagEngine.init "all-MiniLM-L6-v2".

(** A disk holding both collections, and the store and engine loaded
    from it. *)
Definition reset_entry : Py.dict := <["id" := "1"]> (<["category" := "Account"]> reset_faq).

Definition change_entry : Py.dict := <["id" := "2"]> change_faq.

Definition privacy_entry : Py.dict :=
  <["id" := "1"]> (<["title" := "Privacy"]> (<["category" := "Legal"]>
    (<["content" := "We keep your data private."]> ∅))).

Definition full_disk (path : string) : Py.json_file :=
  if decide (path = "./data/faqs.json") then Py.Entries [reset_entry; change_entry]
  else if decide (path = "./data/policies.json") then Py.Entries [privacy_entry]
  else Py.Missing.

Definition loaded_store : Database.KnowledgeBase :=
  snd (Database.load_data full_disk (Database.init "./data")).

Definition loaded_engine : @RagEngine.RAGEngine (Z * Z) :=
  RagEngine.mkRAG "all-MiniLM-L6-v2" (Some axis_encoder)
    (Some [(1, 0)%Z; (0, 1)%Z; (1, 1)%Z])
    (Database.get_all_documents loaded_store).

(** A configured completion client, one without a key, and a service
    that cannot be reached. *)
Definition groq_engine : LlmEngine.LLMEngine :=
  LlmEngine.mkEngine "groq" (Some "key") (Some "llama-3.3-70b-versatile")
    (Some "https://api.groq.com/openai/v1/chat/completions").

Definition keyless_engine : LlmEngine.LLMEngine :=
  LlmEngine.mkEngine "openai" None (Some "gpt-4o-mini")
    (Some "https://api.openai.com/v1/chat/completions").

Definition unreachable (request : LlmEngine.Request) : LlmEngine.PostResult :=
  LlmEngine.TimedOut.

Definition echo_service (request : LlmEngine.Request) : LlmEngine.PostResult :=
  LlmEngine.Replied 200 "{}" (Py.Returned " ok ").

(** A clock, a uuid generator, renderers, a request and a starting
    world. *)
Definition sample_now (n : nat) : string := "2024-01-01T00:00:00".

Definition sample_time (n : nat) : Z := Z.of_nat n.

Definition sample_uuid (n : nat) : string := "00000000-0000-4000-8000-000000000000".

Definition sample_percent (s : Z) : string := pretty s.

Definition sample_repr (d : Py.dict) : string := "{...}".

Definition sample_request : App.ChatRequest :=
  App.mkRequest "How do I reset my password?" (Some "s1") true 3 "default".

Definition sample_world : Memory.World := Memory.mkWorld 0 Memory.conversation_memory.

Definition sample_argsort : list Z -> list nat := insertion_argsort Z.leb.

Definition sample_chat (request : App.ChatRequest) : Memory.M App.ChatResponse :=
  App.chat dot sample_argsort sample_percent sample_repr Py.ascii_upper Py.ascii_strip
    loaded_engine groq_engine unreachable sample_time sample_now sample_uuid request.

(** A memory with two sessions in use: three messages in [s1], one in
    [s2]. *)
Definition busy_calls : list Spec.Call :=
  [ Spec.mkCall "s1" "user" "hi" None;
    Spec.mkCall "s1" "assistant" "hello" None;
    Spec.mkCall "s2" "user" "hey" None;
    Spec.mkCall "s1" "user" "bye" None ].

Definition busy_world : Memory.World :=
  snd (Spec.add_messages sample_now busy_calls sample_world).

(** A model loader that always gives the axis encoder, and a batch
    encoder that encodes each text with the model. *)
Definition load_axis_model (model_name : string) : Py.outcome (string -> Z * Z) :=
  Py.Returned axis_encoder.

Definition encode_each (m : string -> Z * Z) (texts : list Py.value)
    : Py.outcome (list (Z * Z)) :=
  Py.Returned (map (fun v => match v with Py.Str s => m s | Py.Dict _ => m EmptyString end) texts).

Definition sample_initialize (self : @RagEngine.RAGEngine (Z * Z))
    (kb : Database.KnowledgeBase) (file : option (@RagEngine.Snapshot (Z * Z))) :=
  RagEngine.initialize load_axis_model encode_each full_disk id
    (fun data => Some (RagEngine.complete data)) self kb file.

Definition twin_snapshot : @RagEngine.Snapshot (Z * Z) :=
  RagEngine.mkSnapshot (RagEngine.embeddings twin_engine) (RagEngine.documents twin_engine)
    "all-MiniLM-L6-v2".


(** The engine [initialize] builds from the full disk: every document of
    the loaded store, each encoded on the first axis. *)
Definition loaded_engine_built : @RagEngine.RAGEngine (Z * Z) :=
  RagEngine.mkRAG "all-MiniLM-L6-v2" (Some axis_encoder)
    (Some [(1, 0)%Z; (1, 0)%Z; (1, 0)%Z])
    (Database.get_all_documents loaded_store).
(** * Properties *)

(** ** Conversation memory *)

Section MemoryFacts.

Import Memory.

Variable datetime_now : nat -> string.

Lemma clear_session_conversations (m : ConversationMemory) (session_id : string) :
  conversations (clear_session m session_id) = delete session_id (conversations m).
Proof.
  unfold clear_session.
  destruct (conversations m !! session_id) eqn:E; simpl; [reflexivity|].
  symmetry. apply delete_id. exact E.
Qed.

Lemma clear_session_unknown (m : ConversationMemory) (session_id : string) :
  conversations m !! session_id = None -> clear_session m session_id = m.
Proof. intros E. unfold clear_session. rewrite E. reflexivity. Qed.

Lemma clear_session_analytics (m : ConversationMemory) (session_id : string) :
  analytics_log (clear_session m session_id) = analytics_log m.
Proof. unfold clear_session. destruct (conversations m !! session_id); reflexivity. Qed.

(** C8.  [clear_session] deletes the history of the session and nothing
    else: afterwards the session has no history, clearing again (or
    clearing a session that was never there) changes nothing, every
    other session keeps its history, and the analytics log, hence the
    analytics summary, is the one from before the clear. *)
Theorem clear_session_frame (m : ConversationMemory) (session_id : string) :
  conversations (clear_session m session_id) = delete session_id (conversations m)
  /\ get_conversation_history (clear_session m session_id) session_id = []
  /\ clear_session (clear_session m session_id) session_id = clear_session m session_id
  /\ (is_Some (conversations m !! session_id) \/ clear_session m session_id = m)
  /\ analytics_log (clear_session m session_id) = analytics_log m
  /\ get_analytics_summary (clear_session m session_id) = get_analytics_summary m.
Proof.
  assert (Hgone : conversations (clear_session m session_id) !! session_id = None).
  { rewrite clear_session_conversations. apply lookup_delete_eq. }
  split; [apply clear_session_conversations|].
  split; [unfold get_conversation_history; rewrite Hgone; reflexivity|].
  split; [apply clear_session_unknown, Hgone|].
  split.
  { destruct (conversations m !! session_id) eqn:E; [left; eauto|].
    right. apply clear_session_unknown, E. }
  split; [apply clear_session_analytics|].
  unfold get_analytics_summary. rewrite clear_session_analytics. reflexivity.
Qed.

Lemma alter_as_insert (f : deque -> deque) (k : string) (c : gmap string deque) (d : deque) :
  c !! k = Some d -> alter f k c = <[k := f d]> c.
Proof.
  intros E. apply map_eq. intros j. rewrite lookup_alter, lookup_insert.
  destruct (decide (k = j)) as [->|]; [rewrite E|]; reflexivity.
Qed.

(** What one [log_message] does to the world. *)
Lemma log_message_run session_id role content used time md (w : World) :
  log_message datetime_now session_id role content used time md w
  = (tt, mkWorld (S (ticks w))
           (mkMemory (max_messages (memory w)) (conversations (memory w))
              (analytics_log (memory w)
               ++ [mkLogEntry session_id role content (datetime_now (ticks w))
                     used time (Py.or_empty md)]))).
Proof. reflexivity. Qed.

(** What one [add_message] does to the world. *)
Lemma add_message_run session_id role content md (w : World) :
  add_message datetime_now session_id role content md w
  = (tt, mkWorld (S (S (ticks w)))
           (mkMemory (max_messages (memory w))
              (<[session_id :=
                   deque_append (Spec.deque_of (memory w) session_id)
                     (mkMessage role content (datetime_now (ticks w)) (Py.or_empty md))]>
                 (conversations (memory w)))
              (analytics_log (memory w)
               ++ [mkLogEntry session_id role content (datetime_now (S (ticks w)))
                     0 None (Py.or_empty md)]))).
Proof.
  destruct w as [t [n c log]].
  unfold add_message, Spec.deque_of, bind, get_memory, put_memory, read, ret, log_message; simpl.
  destruct (c !! session_id) as [d|] eqn:E; simpl.
  - rewrite (alter_as_insert _ _ _ _ E). reflexivity.
  - rewrite (alter_as_insert _ session_id _ (mkDeque n [])) by apply lookup_insert_eq.
    rewrite insert_insert_eq. reflexivity.
Qed.

Lemma bounded_init (n : nat) : Spec.bounded (init n).
Proof. intros k d E. simpl in E. rewrite lookup_empty in E. discriminate. Qed.

Lemma deque_append_items (d : deque) (x : Message) :
  length (items d) <= maxlen d ->
  items (deque_append d x) = Spec.last_n (maxlen d) (items d ++ [x]).
Proof.
  intros Hlen. unfold deque_append, Spec.last_n; simpl.
  rewrite length_app; simpl.
  destruct (Nat.ltb_spec (maxlen d) (length (items d) + 1)) as [H|H].
  - replace (length (items d) + 1 - maxlen d) with 1 by lia.
    destruct (items d ++ [x]); reflexivity.
  - replace (length (items d) + 1 - maxlen d) with 0 by lia. reflexivity.
Qed.

Lemma last_n_length {A} (n : nat) (l : list A) : length (Spec.last_n n l) <= n.
Proof. unfold Spec.last_n. rewrite length_drop. lia. Qed.

Lemma last_n_app_last_n {A} (n : nat) (l k : list A) :
  Spec.last_n n (Spec.last_n n l ++ k) = Spec.last_n n (l ++ k).
Proof.
  unfold Spec.last_n. rewrite !length_app, length_drop, !drop_app, drop_drop, length_drop.
  f_equal; f_equal; lia.
Qed.

Lemma last_n_short {A} (n : nat) (l : list A) : length l <= n -> Spec.last_n n l = l.
Proof. intros H. unfold Spec.last_n. replace (length l - n) with 0 by lia. reflexivity. Qed.

Lemma history_bounded (m : ConversationMemory) (session_id : string) :
  Spec.bounded m -> length (get_conversation_history m session_id) <= max_messages m.
Proof.
  intros Hb. unfold get_conversation_history.
  destruct (conversations m !! session_id) as [d|] eqn:E; simpl; [|lia].
  destruct (Hb _ _ E) as [<- H]. exact H.
Qed.

Lemma deque_of_bounded (m : ConversationMemory) (session_id : string) :
  Spec.bounded m ->
  maxlen (Spec.deque_of m session_id) = max_messages m
  /\ length (items (Spec.deque_of m session_id)) <= max_messages m
  /\ items (Spec.deque_of m session_id) = get_conversation_history m session_id.
Proof.
  intros Hb. unfold Spec.deque_of, get_conversation_history.
  destruct (conversations m !! session_id) as [d|] eqn:E; simpl.
  - destruct (Hb _ _ E) as [H1 H2]. rewrite <- H1. auto.
  - repeat split. lia.
Qed.

(** One [add_message] keeps the invariant and slides the window of its
    session by one message. *)
Lemma add_message_step session_id role content md (w : World) :
  Spec.bounded (memory w) ->
  let w' := snd (add_message datetime_now session_id role content md w) in
  Spec.bounded (memory w')
  /\ max_messages (memory w') = max_messages (memory w)
  /\ ticks w' = S (S (ticks w))
  /\ forall s,
       get_conversation_history (memory w') s
       = if decide (session_id = s)
         then Spec.last_n (max_messages (memory w))
                (get_conversation_history (memory w) s
                 ++ [mkMessage role content (datetime_now (ticks w)) (Py.or_empty md)])
         else get_conversation_history (memory w) s.
Proof.
  intros Hb. rewrite add_message_run. cbn [snd memory ticks max_messages].
  destruct (deque_of_bounded _ session_id Hb) as (Hmax & Hlen & Hitems).
  split; [|split; [reflexivity|split; [reflexivity|]]].
  - intros s d. cbn [conversations max_messages]. rewrite lookup_insert.
    destruct (decide (session_id = s)) as [->|Hne].
    + intros [= <-]. split; [exact Hmax|].
      rewrite deque_append_items by lia.
      cbn [deque_append maxlen]. apply last_n_length.
    + apply Hb.
  - intros s. unfold get_conversation_history at 1. cbn [conversations].
    rewrite lookup_insert.
    destruct (decide (session_id = s)) as [->|Hne]; [|reflexivity].
    rewrite deque_append_items by lia. rewrite Hmax, Hitems. reflexivity.
Qed.

Lemma add_messages_history (calls : list Spec.Call) : forall (w : World),
  Spec.bounded (memory w) ->
  let w' := snd (Spec.add_messages datetime_now calls w) in
  Spec.bounded (memory w')
  /\ max_messages (memory w') = max_messages (memory w)
  /\ forall s,
       get_conversation_history (memory w') s
       = Spec.last_n (max_messages (memory w))
           (get_conversation_history (memory w) s
            ++ Spec.sent datetime_now (ticks w) calls s).
Proof.
  induction calls as [|c rest IH]; intros w Hb.
  - cbn. split; [exact Hb|split; [reflexivity|]].
    intros s. rewrite app_nil_r. symmetry. apply last_n_short, history_bounded, Hb.
  - cbn [Spec.add_messages Spec.sent]. unfold bind.
    pose proof (add_message_step (Spec.call_session c) (Spec.call_role c)
                  (Spec.call_content c) (Spec.call_metadata c) w Hb) as Hstep.
    destruct (add_message datetime_now (Spec.call_session c) (Spec.call_role c)
                (Spec.call_content c) (Spec.call_metadata c) w) as [[] w1].
    cbn [snd] in Hstep. destruct Hstep as (Hb1 & Hmax1 & Ht1 & Hh1).
    destruct (IH w1 Hb1) as (Hb' & Hmax' & Hh').
    split; [exact Hb'|split; [congruence|]].
    intros s. rewrite Hh', Hmax1, Hh1, Ht1.
    replace (ticks w + 2) with (S (S (ticks w))) by lia.
    destruct (decide (Spec.call_session c = s)) as [Heq|Hne].
    + rewrite last_n_app_last_n, <- app_assoc. reflexivity.
    + reflexivity.
Qed.

(** C4.  Whatever sequence of [add_message] calls runs on a fresh memory
    of capacity [n], the history of every session is the last [n] of the
    messages sent to it, oldest first, hence never longer than [n]; the
    shared instance has capacity 10. *)
Theorem sliding_window (n : nat) (calls : list Spec.Call) (t : nat) (session_id : string) :
  let m := memory (snd (Spec.add_messages datetime_now calls (mkWorld t (init n)))) in
  get_conversation_history m session_id
    = Spec.last_n n (Spec.sent datetime_now t calls session_id)
  /\ length (get_conversation_history m session_id) <= n
  /\ max_messages conversation_memory = 10.
Proof.
  destruct (add_messages_history calls (mkWorld t (init n)) (bounded_init n))
    as (_ & _ & Hh).
  cbn zeta. rewrite Hh. cbn. split; [reflexivity|]. split; [apply last_n_length|reflexivity].
Qed.

(** For a positive [n] the slice [history[-n:]] is the last [n]
    messages. *)
Lemma slice_from_last_n {A} (n : Z) (l : list A) :
  (1 <= n)%Z -> Py.slice_from (- n) l = Spec.last_n (Z.to_nat n) l.
Proof.
  intros Hn. unfold Py.slice_from, Spec.last_n.
  destruct (Z.ltb_spec (- n) 0) as [_|H]; [|lia].
  f_equal. lia.
Qed.

Lemma get_last_n_messages_positive (m : ConversationMemory) (session_id : string) (n : Z) :
  (1 <= n)%Z ->
  get_last_n_messages m session_id n
  = Spec.last_n (Z.to_nat n) (get_conversation_history m session_id).
Proof.
  intros Hn. unfold get_last_n_messages.
  destruct (get_conversation_history m session_id) eqn:E; [reflexivity|].
  apply slice_from_last_n, Hn.
Qed.

(** With [n = 0] the slice is [history[0:]]: the whole history. *)
Lemma get_last_n_messages_zero (m : ConversationMemory) (session_id : string) :
  get_last_n_messages m session_id 0 = get_conversation_history m session_id.
Proof.
  unfold get_last_n_messages.
  destruct (get_conversation_history m session_id); reflexivity.
Qed.

(** The transcript for a positive [n]: the sentinel for a session
    without messages, else the header and one line for each of the last
    [n] messages, oldest first. *)
Lemma format_history_positive (m : ConversationMemory) (session_id : string) (n : Z) :
  (1 <= n)%Z ->
  format_history_for_prompt m session_id n
  = match get_conversation_history m session_id with
    | [] => start_of_conversation
    | _ :: _ =>
        Py.join Py.nl
          ("Previous conversation:"
           :: map format_line
                (Spec.last_n (Z.to_nat n) (get_conversation_history m session_id)))
    end.
Proof.
  intros Hn. unfold format_history_for_prompt.
  rewrite get_last_n_messages_positive by exact Hn.
  destruct (get_conversation_history m session_id) as [|x l] eqn:E; [reflexivity|].
  destruct (Spec.last_n (Z.to_nat n) (x :: l)) eqn:E'; [|reflexivity].
  exfalso. apply (f_equal length) in E'. unfold Spec.last_n in E'.
  rewrite length_drop in E'. simpl in E'. lia.
Qed.

End MemoryFacts.

(** C5.  A session holding a user message and an assistant message,
    asked for its last 0 messages: the transcript carries both messages,
    where at most 0 were asked for. *)
Theorem format_history_zero_returns_all :
  let clock := fun _ : nat => "2024-01-01T00:00:00" in
  let calls := [Spec.mkCall "s" "user" "hi" None; Spec.mkCall "s" "assistant" "hello" None] in
  let m := Memory.memory
             (snd (Spec.add_messages clock calls (Memory.mkWorld 0 Memory.conversation_memory))) in
  length (Memory.get_conversation_history m "s") = 2
  /\ length (Memory.get_last_n_messages m "s" 0) = 2
  /\ Memory.format_history_for_prompt m "s" 0
     = "Previous conversation:" +:+ Py.nl +:+ "User: hi" +:+ Py.nl +:+ "Assistant: hello".
Proof. vm_compute. repeat split. Qed.

(** ** Prompt builder *)

Section LlmFacts.

Import LlmEngine.

Lemma append_assoc (a b c : string) : (a +:+ b) +:+ c = a +:+ (b +:+ c).
Proof.
  induction a as [|x a IH]; [reflexivity|].
  change (String x ((a +:+ b) +:+ c) = String x (a +:+ (b +:+ c))).
  f_equal. exact IH.
Qed.



(** The fallback text quotes the query. *)
Lemma fallback_contains_query (user_query : string) :
  Spec.substring user_query (get_fallback_response user_query).
Proof.
  unfold Spec.substring, get_fallback_response, Py.join.
  cbn [String.concat]. rewrite !append_assoc.
  exists (String.concat Py.nl [
    "I apologize, but I'm having trouble processing your request right now.";
    EmptyString;
    "However, I can help you with:";
    "* Account management questions";
    "* Billing and payment inquiries";
    "* Technical support issues";
    "* Subscription and plan information";
    "* Privacy and security questions";
    EmptyString;
    "Your question was: " +:+ Py.dquote ]),
    (Py.dquote +:+ "." +:+ Py.nl
     +:+ "Please try rephrasing your question or contact support.").
  reflexivity.
Qed.

End LlmFacts.

(** ** Document store *)

Section LoaderFacts.

Variable fs : string -> Py.json_file.

Lemma database_load_missing (kb : Database.KnowledgeBase) :
  Spec.collection_absent fs (Database.data_dir kb) ->
  Database.load_data fs kb
  = (false,
     Database.mkKB (Database.data_dir kb)
       (Spec.faqs_after_failure fs (Database.data_dir kb) (Database.faqs kb))
       (Database.policies kb) (Database.all_documents kb)).
Proof.
  unfold Spec.collection_absent, Spec.faqs_after_failure, Database.load_data.
  destruct kb as [dir f p docs]. cbn [Database.data_dir Database.faqs
    Database.policies Database.all_documents].
  intros [H|H].
  - rewrite H. reflexivity.
  - destruct (fs (Py.path_join dir "faqs.json")); try reflexivity.
    rewrite H. reflexivity.
Qed.

Lemma knowledge_base_load_missing (kb : KnowledgeBase.KnowledgeBase) :
  Spec.collection_absent fs (KnowledgeBase.data_dir kb) ->
  KnowledgeBase.load_data fs kb
  = (false,
     KnowledgeBase.mkKB (KnowledgeBase.data_dir kb)
       (Spec.faqs_after_failure fs (KnowledgeBase.data_dir kb) (KnowledgeBase.faqs kb))
       (KnowledgeBase.policies kb) (KnowledgeBase.all_documents kb)).
Proof.
  unfold Spec.collection_absent, Spec.faqs_after_failure, KnowledgeBase.load_data.
  destruct kb as [dir f p docs]. cbn [KnowledgeBase.data_dir KnowledgeBase.faqs
    KnowledgeBase.policies KnowledgeBase.all_documents].
  intros [H|H].
  - rewrite H. reflexivity.
  - destruct (fs (Py.path_join dir "faqs.json")); try reflexivity.
    rewrite H. reflexivity.
Qed.

(** When both files can be read, the three attributes are replaced. *)
Lemma database_load_present (kb : Database.KnowledgeBase) (f p : list Py.dict) :
  fs (Py.path_join (Database.data_dir kb) "faqs.json") = Py.Entries f ->
  fs (Py.path_join (Database.data_dir kb) "policies.json") = Py.Entries p ->
  Database.load_data fs kb
  = (true, Database.mkKB (Database.data_dir kb) f p
             (map Database.faq_document f ++ map Database.policy_document p)).
Proof.
  intros Hf Hp. unfold Database.load_data. rewrite Hf. cbn. rewrite Hp. reflexivity.
Qed.

(** C2, as the code has it.  When one of the two collections is absent,
    [load_data] of either loader answers [False], and leaves the
    policies and the prepared documents as they were; the FAQ entries
    are as they were when the FAQ collection is the absent one, and are
    the entries just read otherwise. *)
Theorem load_data_missing_collection
    (a : Database.KnowledgeBase) (b : KnowledgeBase.KnowledgeBase) :
  Spec.collection_absent fs (Database.data_dir a) ->
  Spec.collection_absent fs (KnowledgeBase.data_dir b) ->
  (fst (Database.load_data fs a) = false
   /\ Database.policies (snd (Database.load_data fs a)) = Database.policies a
   /\ Database.all_documents (snd (Database.load_data fs a)) = Database.all_documents a
   /\ Database.faqs (snd (Database.load_data fs a))
      = Spec.faqs_after_failure fs (Database.data_dir a) (Database.faqs a))
  /\ (fst (KnowledgeBase.load_data fs b) = false
      /\ KnowledgeBase.policies (snd (KnowledgeBase.load_data fs b)) = KnowledgeBase.policies b
      /\ KnowledgeBase.all_documents (snd (KnowledgeBase.load_data fs b))
         = KnowledgeBase.all_documents b
      /\ KnowledgeBase.faqs (snd (KnowledgeBase.load_data fs b))
         = Spec.faqs_after_failure fs (KnowledgeBase.data_dir b) (KnowledgeBase.faqs b)).
Proof.
  intros Ha Hb.
  rewrite (database_load_missing a Ha), (knowledge_base_load_missing b Hb).
  repeat split.
Qed.

End LoaderFacts.

Lemma load_data_missing_collection_witness :
  Spec.collection_absent (faqs_only [new_faq]) "./data"
  /\ fst (Database.load_data (faqs_only [new_faq]) (Database.mkKB "./data" [old_faq] [] [])) = false
  /\ fst (KnowledgeBase.load_data (faqs_only [new_faq])
            (KnowledgeBase.mkKB "./data" [old_faq] [] [])) = false.
Proof.
  assert (H : Spec.collection_absent (faqs_only [new_faq]) "./data")
    by (right; reflexivity).
  split; [exact H|].
  pose proof (load_data_missing_collection (faqs_only [new_faq])
                (Database.mkKB "./data" [old_faq] [] [])
                (KnowledgeBase.mkKB "./data" [old_faq] [] []) H H) as [[Ha _] [Hb _]].
  split; [exact Ha|exact Hb].
Defined.

(** C2 fails as stated: with the FAQ file on disk and the policy file
    absent, both loaders report failure and yet the store's FAQ entries
    are no longer the previously loaded ones. *)
Lemma load_data_not_all_or_nothing :
  let fs := faqs_only [new_faq] in
  fs "./data/policies.json" = Py.Missing
  /\ fst (Database.load_data fs (Database.mkKB "./data" [old_faq] [] [])) = false
  /\ Database.faqs (snd (Database.load_data fs (Database.mkKB "./data" [old_faq] [] [])))
     = [new_faq]
  /\ fst (KnowledgeBase.load_data fs (KnowledgeBase.mkKB "./data" [old_faq] [] [])) = false
  /\ KnowledgeBase.faqs
       (snd (KnowledgeBase.load_data fs (KnowledgeBase.mkKB "./data" [old_faq] [] [])))
     = [new_faq]
  /\ [new_faq] <> [old_faq].
Proof.
  cbn zeta. repeat split.
  intros H. apply (f_equal (fun l => match l with d :: _ => d !! "id" | [] => None end)) in H.
  vm_compute in H. discriminate.
Qed.

(** ** Embedding index: empty index and snapshots *)

Section IndexFacts.

Import RagEngine.

Context {embedding score bytes : Type}.
Variable cosine_similarity : embedding -> embedding -> score.
Variable argsort : list score -> list nat.
Variable pickle_dumps : @Snapshot embedding -> bytes.
Variable pickle_loads : bytes -> option (@Loaded embedding).

(** [pickle.load] gives back what [pickle.dump] was given. *)
Hypothesis pickle_roundtrip :
  forall data, pickle_loads (pickle_dumps data) = Some (complete data).

(** C6.  With no stored vectors, whether [embeddings] is still [None]
    or is an empty array, [retrieve_context] returns the empty list, for
    every query and every [top_k]; the function being total, no
    exception leaves it. *)
Theorem retrieve_context_empty_index (self : RAGEngine) (query : string) (top_k : Z) :
  embeddings self = None \/ embeddings self = Some [] ->
  retrieve_context cosine_similarity argsort self query top_k = [].
Proof.
  intros [H|H]; unfold retrieve_context; rewrite H; reflexivity.
Qed.

(** The engine that results from a successful load of the snapshot
    saved by [saved]. *)
Lemma load_after_save (saved self : RAGEngine) :
  _load_vector_store pickle_loads self (_save_vector_store pickle_dumps saved)
  = if String.eqb (model_name saved) (model_name self)
    then (true, mkRAG (model_name self) (model self) (embeddings saved) (documents saved))
    else (false, self).
Proof.
  unfold _load_vector_store, _save_vector_store. rewrite pickle_roundtrip.
  cbn [complete loaded_model_name loaded_embeddings loaded_documents
       snapshot_model_name snapshot_embeddings snapshot_documents].
  destruct (String.eqb (model_name saved) (model_name self)); reflexivity.
Qed.

(** C9.  The snapshot written by [_save_vector_store] reads back as the
    vectors, the documents and the model name of the engine that saved
    it; [_load_vector_store] on it succeeds exactly when that model name
    is the one of the loading engine, and then installs these vectors and
    documents; otherwise it leaves the loading engine as it was. *)
Theorem snapshot_roundtrip (saved self : RAGEngine) :
  (exists b, _save_vector_store pickle_dumps saved = Some b
             /\ pickle_loads b
                = Some (complete
                          (mkSnapshot (embeddings saved) (documents saved) (model_name saved))))
  /\ fst (_load_vector_store pickle_loads self (_save_vector_store pickle_dumps saved))
     = String.eqb (model_name saved) (model_name self)
  /\ snd (_load_vector_store pickle_loads self (_save_vector_store pickle_dumps saved))
     = (if String.eqb (model_name saved) (model_name self)
        then mkRAG (model_name self) (model self) (embeddings saved) (documents saved)
        else self)
  /\ _load_vector_store pickle_loads saved (_save_vector_store pickle_dumps saved)
     = (true, saved).
Proof.
  split.
  { eexists. split; [reflexivity|]. apply pickle_roundtrip. }
  rewrite !load_after_save, String.eqb_refl.
  destruct (String.eqb (model_name saved) (model_name self));
    repeat split; destruct saved; reflexivity.
Qed.

End IndexFacts.

(** ** Embedding index: the positions returned *)

Section PositionFacts.

Import RagEngine.

Context {embedding score : Type}.
Variable cosine_similarity : embedding -> embedding -> score.
Variable argsort : list score -> list nat.

(** [argsort] returns each position once. *)
Hypothesis argsort_permutes : Spec.permutes argsort.

Lemma StronglySorted_reverse {A} (R : relation A) (l : list A) :
  StronglySorted R l -> StronglySorted (flip R) (reverse l).
Proof.
  induction 1 as [|x l Hs IH Hx]; [constructor|].
  rewrite reverse_cons. apply StronglySorted_app_2; [|exact IH|repeat constructor].
  intros y z Hy Hz. apply list_elem_of_singleton in Hz as ->.
  rewrite elem_of_reverse in Hy. rewrite Forall_forall in Hx. apply Hx, Hy.
Qed.

Lemma StronglySorted_drop {A} (R : relation A) (n : nat) (l : list A) :
  StronglySorted R l -> StronglySorted R (drop n l).
Proof.
  intros H. rewrite <- (take_drop n l) in H. eapply StronglySorted_app_1_r, H.
Qed.

Lemma argsort_length (sims : list score) : length (argsort sims) = length sims.
Proof. rewrite (argsort_permutes sims). apply length_seq. Qed.

Lemma argsort_NoDup (sims : list score) : NoDup (argsort sims).
Proof. rewrite (argsort_permutes sims). apply NoDup_seq. Qed.

Lemma argsort_elem (sims : list score) (i : nat) :
  i ∈ argsort sims <-> i < length sims.
Proof. rewrite (argsort_permutes sims), elem_of_seq. lia. Qed.

(** [top_indices]: the sorted positions without the first
    [Spec.cut n top_k] of them, read backwards. *)
Lemma top_indices_drop (sims : list score) (top_k : Z) :
  top_indices_of argsort sims top_k
  = reverse (drop (Spec.cut (length sims) top_k) (argsort sims)).
Proof.
  unfold top_indices_of, Py.slice_from, Spec.cut. rewrite argsort_length. do 2 f_equal.
  destruct (Z.leb_spec 1 top_k); destruct (Z.ltb_spec (- top_k) 0); lia.
Qed.

Lemma top_indices_NoDup (sims : list score) (top_k : Z) :
  NoDup (top_indices_of argsort sims top_k).
Proof.
  rewrite top_indices_drop, reverse_Permutation.
  eapply sublist_NoDup; [apply argsort_NoDup|apply sublist_drop].
Qed.

Lemma top_indices_lt (sims : list score) (top_k : Z) (i : nat) :
  i ∈ top_indices_of argsort sims top_k -> i < length sims.
Proof.
  rewrite top_indices_drop, elem_of_reverse. intros H. apply argsort_elem.
  eapply elem_of_sublist; [exact H|apply sublist_drop].
Qed.

Lemma top_indices_length (sims : list score) (top_k : Z) :
  length (top_indices_of argsort sims top_k) = length sims - Spec.cut (length sims) top_k.
Proof. rewrite top_indices_drop, length_reverse, length_drop, argsort_length. reflexivity. Qed.

(** The loop of [retrieve_context], when no index is out of range: one
    result for each index, in order, ranked from [length results + 1]. *)
Lemma collect_spec (docs : list Py.object) (sims : list score) (idxs : list nat) :
  forall acc res,
  collect docs sims idxs acc = Some res ->
  exists new,
    res = acc ++ new
    /\ Forall2 (fun i r => docs !! i = Some (document r)
                           /\ sims !! i = Some (result_score r)) idxs new
    /\ rank <$> new = seq (length acc + 1) (length idxs).
Proof.
  induction idxs as [|i idxs IH]; intros acc res; cbn [collect].
  - intros [= <-]. exists []. rewrite app_nil_r. repeat constructor.
  - destruct (docs !! i) as [doc|] eqn:Ed; [|discriminate].
    destruct (sims !! i) as [s|] eqn:Es; [|discriminate].
    intros H. apply IH in H as (new & -> & Hf & Hr).
    exists (mkRetrieved doc s (length acc + 1) :: new).
    split; [rewrite <- app_assoc; reflexivity|].
    split; [constructor; [split; [exact Ed|exact Es]|exact Hf]|].
    cbn. f_equal. rewrite Hr, length_app. cbn. f_equal. lia.
Qed.

Lemma collect_total (docs : list Py.object) (sims : list score) (idxs : list nat) :
  (forall i, i ∈ idxs -> i < length sims /\ i < length docs) ->
  forall acc, exists res, collect docs sims idxs acc = Some res.
Proof.
  induction idxs as [|i idxs IH]; intros Hel acc; cbn; [eauto|].
  destruct (Hel i) as [Hs Hi]; [left|].
  destruct (lookup_lt_is_Some_2 docs i Hi) as [doc ->].
  destruct (lookup_lt_is_Some_2 sims i Hs) as [s ->].
  apply IH. intros j Hj. apply Hel. right. exact Hj.
Qed.

Lemma Forall2_StronglySorted {A B} (P : A -> B -> Prop) (R : relation A) (Q : relation B)
    (l : list A) (k : list B) :
  (forall x x' y y', P x y -> P x' y' -> R x x' -> Q y y') ->
  Forall2 P l k -> StronglySorted R l -> StronglySorted Q k.
Proof.
  intros HPQ HF. induction HF as [|x y l k Hxy HF IH]; intros Hs; [constructor|].
  apply StronglySorted_cons in Hs as [Hx Hs]. apply StronglySorted_cons.
  split; [|apply IH, Hs].
  clear IH Hs. induction HF as [|x' y' l k Hxy' HF IH]; [constructor|].
  apply Forall_cons in Hx as [Hxx' Hx]. constructor; [eauto|apply IH, Hx].
Qed.

(** Either [retrieve_context] answers the empty list, or the loop ran
    to its end over the top indices of the scores. *)
Lemma retrieve_context_cases (self : RAGEngine) (query : string) (top_k : Z) :
  retrieve_context cosine_similarity argsort self query top_k = []
  \/ collect (documents self) (Spec.scores cosine_similarity self query)
       (top_indices_of argsort (Spec.scores cosine_similarity self query) top_k) []
     = Some (retrieve_context cosine_similarity argsort self query top_k).
Proof.
  unfold retrieve_context, Spec.scores.
  destruct (embeddings self) as [[|v vs]|]; destruct (model self) as [encode|];
    try (left; reflexivity).
  cbn zeta.
  destruct (collect _ _ _ _) as [res|]; [right; reflexivity|left; reflexivity].
Qed.

(** With as many documents as stored vectors, the loop of
    [retrieve_context] runs to its end: there is one result for each of
    the top indices. *)
Lemma retrieve_context_positions (self : RAGEngine) (query : string) (top_k : Z)
    (encode : string -> embedding) (stored : list embedding) :
  model self = Some encode ->
  embeddings self = Some stored ->
  length (documents self) = length stored ->
  Forall2 (fun i r => documents self !! i = Some (document r)
                      /\ Spec.scores cosine_similarity self query !! i
                         = Some (result_score r))
    (top_indices_of argsort (Spec.scores cosine_similarity self query) top_k)
    (retrieve_context cosine_similarity argsort self query top_k).
Proof.
  intros Hm He Hlen. unfold retrieve_context, Spec.scores. rewrite He, Hm.
  destruct stored as [|v vs].
  { change (similarities_of cosine_similarity encode [] query) with (@nil score).
    rewrite (nil_length_inv (top_indices_of argsort [] top_k));
      [constructor|rewrite top_indices_length; reflexivity]. }
  cbn zeta.
  set (sims := similarities_of cosine_similarity encode (v :: vs) query).
  assert (Hin : forall i, i ∈ top_indices_of argsort sims top_k ->
                 i < length sims /\ i < length (documents self)).
  { intros i H. apply top_indices_lt in H. split; [exact H|].
    unfold sims, similarities_of in H. rewrite length_map in H. lia. }
  destruct (collect_total (documents self) sims _ Hin []) as [res Hres].
  rewrite Hres. apply collect_spec in Hres as (new & -> & HF & _).
  exact HF.
Qed.

End PositionFacts.

(** ** Embedding index: ranking *)

Section RankingFacts.

Import RagEngine.

Context {embedding score : Type}.
Variable cosine_similarity : embedding -> embedding -> score.
Variable score_leb : score -> score -> bool.
Variable argsort : list score -> list nat.

(** [argsort] does what NumPy documents of it. *)
Hypothesis argsort_sorts : Spec.sorts score_leb argsort.

Lemma top_indices_sorted (sims : list score) (top_k : Z) :
  StronglySorted (flip (Spec.ascending_by score_leb sims))
    (top_indices_of argsort sims top_k).
Proof.
  destruct argsort_sorts as [Hp Hs]. rewrite (top_indices_drop argsort Hp).
  apply StronglySorted_reverse, StronglySorted_drop, Hs.
Qed.

(** The ranking delivered by [retrieve_context] for [top_k >= 1]. *)
Lemma ranking_of_results (self : RAGEngine) (query : string) (top_k : Z) :
  (1 <= top_k)%Z ->
  let results := retrieve_context cosine_similarity argsort self query top_k in
  length results <= Z.to_nat top_k
  /\ StronglySorted
       (fun r1 r2 => score_leb (result_score r2) (result_score r1) = true) results
  /\ rank <$> results = seq 1 (length results)
  /\ exists positions : list nat,
       NoDup positions
       /\ Forall2 (fun i r =>
                     documents self !! i = Some (document r)
                     /\ Spec.scores cosine_similarity self query !! i = Some (result_score r))
            positions results.
Proof.
  intros Hk results. subst results.
  destruct (retrieve_context_cases cosine_similarity argsort self query top_k) as [-> | Ec].
  { cbn. split; [lia|]. split; [constructor|]. split; [reflexivity|].
    exists []. repeat constructor. }
  set (sims := Spec.scores cosine_similarity self query) in *.
  pose proof (top_indices_sorted sims top_k) as Hs.
  pose proof (top_indices_NoDup argsort (proj1 argsort_sorts) sims top_k) as Hnd.
  pose proof (top_indices_length argsort (proj1 argsort_sorts) sims top_k) as Hlen.
  unfold Spec.cut in Hlen. destruct (Z.leb_spec 1 top_k) as [_|]; [|lia].
  apply collect_spec in Ec as (new & Hnew & HF & Hr).
  cbn [app length] in Hnew, Hr. rewrite Hnew.
  pose proof (Forall2_length _ _ _ HF) as Hl.
  split; [lia|]. split.
  { eapply Forall2_StronglySorted; [|exact HF|exact Hs].
    intros i j r r' [_ Hi] [_ Hj] H. exact (H _ _ Hj Hi). }
  split; [rewrite Hr, Hl; reflexivity|].
  exists (top_indices_of argsort sims top_k). split; [exact Hnd|exact HF].
Qed.

(** C1, as the code has it.  For [top_k >= 1], [retrieve_context]
    returns at most [top_k] results, by non-increasing score, ranked
    [1, 2, ...]; they are the documents at pairwise distinct positions
    of the corpus, each with the score of its position.  Nothing is
    said of the order of two results with equal scores. *)
Theorem retrieve_context_ranking (self : RAGEngine) (query : string) (top_k : Z) :
  (1 <= top_k)%Z ->
  let results := retrieve_context cosine_similarity argsort self query top_k in
  length results <= Z.to_nat top_k
  /\ StronglySorted
       (fun r1 r2 => score_leb (result_score r2) (result_score r1) = true) results
  /\ rank <$> results = seq 1 (length results)
  /\ exists positions : list nat,
       NoDup positions
       /\ Forall2 (fun i r =>
                     documents self !! i = Some (document r)
                     /\ Spec.scores cosine_similarity self query !! i = Some (result_score r))
            positions results.
Proof. exact (ranking_of_results self query top_k). Qed.

(** With pairwise distinct document ids in the corpus, no id comes back
    twice. *)
Lemma retrieve_context_distinct_ids (self : RAGEngine) (query : string) (top_k : Z) :
  (1 <= top_k)%Z ->
  NoDup ((fun doc : Py.object => doc !! "id") <$> documents self) ->
  NoDup ((fun r => document r !! "id") <$>
           retrieve_context cosine_similarity argsort self query top_k).
Proof.
  intros Hk Hids.
  destruct (ranking_of_results self query top_k Hk) as (_ & _ & _ & pos & Hnd & HF).
  revert HF Hnd.
  generalize (retrieve_context cosine_similarity argsort self query top_k).
  intros res HF. induction HF as [|i r pos res [Hd _] HF IH]; intros Hnd; [constructor|].
  apply NoDup_cons in Hnd as [Hi Hnd]. cbn. apply NoDup_cons. split; [|apply IH, Hnd].
  intros Hin. apply Hi. clear IH Hnd Hi.
  induction HF as [|j r' pos res [Hd' _] HF IH]; [inversion Hin|].
  cbn in Hin. apply elem_of_cons in Hin as [Heq|Hin];
    [|apply elem_of_cons; right; apply IH, Hin].
  apply elem_of_cons. left. eapply NoDup_lookup; [exact Hids| |].
  - rewrite list_lookup_fmap, Hd. reflexivity.
  - rewrite list_lookup_fmap, Hd'. cbn. f_equal. symmetry. exact Heq.
Qed.

End RankingFacts.

(** ** The insertion sort meets the contract of [argsort] *)

Section InsertionFacts.

Context {score : Type}.

(** The order of the scores, and the test the sort inserts by: it may
    hold or fail on equal scores. *)
Variable score_leb : score -> score -> bool.
Variable before : score -> score -> bool.

Hypothesis before_sound : forall a b, before a b = true -> score_leb a b = true.
Hypothesis before_complete : forall a b, before a b = false -> score_leb b a = true.
Hypothesis score_leb_trans :
  forall a b c, score_leb a b = true -> score_leb b c = true -> score_leb a c = true.

Local Abbreviation by_score := (fun p q : nat * score => score_leb (snd p) (snd q) = true).

Lemma insert_index_perm (p : nat * score) (l : list (nat * score)) :
  insert_index before p l ≡ₚ p :: l.
Proof.
  induction l as [|q l IH]; simpl; [reflexivity|].
  destruct (before (snd p) (snd q)); [reflexivity|].
  rewrite IH. apply Permutation_swap.
Qed.

Lemma insert_index_sorted (p : nat * score) (l : list (nat * score)) :
  StronglySorted by_score l -> StronglySorted by_score (insert_index before p l).
Proof.
  induction l as [|q l IH]; intros Hs; simpl.
  - repeat constructor.
  - apply StronglySorted_cons in Hs as [Hq Hs].
    destruct (before (snd p) (snd q)) eqn:E.
    + apply StronglySorted_cons. split; [|apply StronglySorted_cons; auto].
      constructor; [apply before_sound, E|].
      rewrite Forall_forall in Hq |- *. intros r Hr.
      eapply score_leb_trans; [apply before_sound, E|apply Hq, Hr].
    + apply StronglySorted_cons. split; [|apply IH; assumption].
      rewrite (insert_index_perm p l). constructor; [|exact Hq].
      apply before_complete, E.
Qed.

Lemma insertion_sort_sorted (l : list (nat * score)) :
  StronglySorted by_score (foldr (insert_index before) [] l)
  /\ foldr (insert_index before) [] l ≡ₚ l.
Proof.
  induction l as [|p l [Hs Hperm]]; simpl.
  - split; [constructor|reflexivity].
  - split; [apply insert_index_sorted, Hs|].
    rewrite insert_index_perm, Hperm. reflexivity.
Qed.

Lemma zip_seq_elem (sims : list score) : forall (a i : nat) (s : score),
  (i, s) ∈ zip (seq a (length sims)) sims -> a <= i /\ sims !! (i - a) = Some s.
Proof.
  induction sims as [|x sims IH]; intros a i s; simpl.
  - intros H. inversion H.
  - rewrite elem_of_cons. intros [[= -> ->]|H].
    + rewrite Nat.sub_diag. auto.
    + apply IH in H as [Hle Hl]. split; [lia|].
      replace (i - a) with (S (i - S a)) by lia. exact Hl.
Qed.

Lemma StronglySorted_fmap_on {A B} (f : A -> B) (P : A -> Prop)
    (R : relation A) (Q : relation B) (l : list A) :
  (forall x y, P x -> P y -> R x y -> Q (f x) (f y)) ->
  Forall P l -> StronglySorted R l -> StronglySorted Q (f <$> l).
Proof.
  intros HRQ HP Hs. induction Hs as [|x l Hs IH Hx]; [constructor|].
  apply Forall_cons in HP as [Px HP]. cbn. constructor; [apply IH, HP|].
  apply Forall_fmap. rewrite Forall_forall in Hx, HP |- *.
  intros y Hy. cbn. apply HRQ; auto.
Qed.

(** The insertion sort is an [argsort] in the sense of the contract,
    whatever its test answers on equal scores. *)
Lemma insertion_argsort_sorts : Spec.sorts score_leb (insertion_argsort before).
Proof.
  split; intros sims; unfold insertion_argsort, sorted_pairs;
    destruct (insertion_sort_sorted (enumerate sims)) as [Hs Hp].
  - rewrite Hp. unfold enumerate. rewrite fst_zip by (rewrite length_seq; lia).
    reflexivity.
  - eapply (StronglySorted_fmap_on fst (fun p => sims !! fst p = Some (snd p)));
      [|rewrite Hp|exact Hs].
    + intros x y Hx Hy H a b Ha Hb. cbn in H. congruence.
    + apply Forall_forall. intros [i s] H. unfold enumerate in H.
      apply zip_seq_elem in H as [_ H]. rewrite Nat.sub_0_r in H. exact H.
Qed.

End InsertionFacts.

Lemma Z_leb_trans (a b c : Z) :
  (a <=? b)%Z = true -> (b <=? c)%Z = true -> (a <=? c)%Z = true.
Proof. rewrite !Z.leb_le. lia. Qed.

Lemma sample_argsort_sorts : Spec.sorts Z.leb sample_argsort.
Proof.
  apply (insertion_argsort_sorts Z.leb Z.leb); [auto| |exact Z_leb_trans].
  intros a b. rewrite Z.leb_gt, Z.leb_le. lia.
Qed.

(** Another [argsort] within the contract: it differs from
    [sample_argsort] on equal scores only. *)
Lemma strict_argsort_sorts : Spec.sorts Z.leb (insertion_argsort Z.ltb).
Proof.
  apply (insertion_argsort_sorts Z.leb Z.ltb); [| |exact Z_leb_trans].
  - intros a b. rewrite Z.ltb_lt, Z.leb_le. lia.
  - intros a b. rewrite Z.ltb_ge, Z.leb_le. lia.
Qed.

(** The contract of [argsort] leaves the order of equal scores open: on
    the same engine and query, two sorts within the contract rank the
    two equal-scored documents in opposite orders. *)
Lemma tie_order_is_open :
  RagEngine.document <$> RagEngine.retrieve_context dot sample_argsort twin_engine "password" 2
  = reverse (RagEngine.document <$>
               RagEngine.retrieve_context dot (insertion_argsort Z.ltb) twin_engine
                 "password" 2)
  /\ length (RagEngine.retrieve_context dot sample_argsort twin_engine "password" 2) = 2.
Proof. split; vm_compute; reflexivity. Qed.

Lemma retrieve_context_ranking_witness :
  (1 <= 2)%Z
  /\ length (RagEngine.retrieve_context dot sample_argsort twin_engine "password" 2) <= 2.
Proof.
  split; [lia|].
  pose proof (retrieve_context_ranking dot Z.leb sample_argsort sample_argsort_sorts
                twin_engine "password" 2 ltac:(lia)) as H.
  exact (proj1 H).
Defined.

(** C1 fails as stated: two FAQ entries without an [id] whose vectors
    are equal, and an [argsort] that keeps equal scores in the order of
    their positions.  The two results carry the same score; the
    document at position 1 is ranked before the one at position 0, and
    both carry the id [faq_NA]. *)
Lemma retrieve_context_tie_order :
  let results := RagEngine.retrieve_context dot sample_argsort twin_engine "password" 2 in
  RagEngine.result_score <$> results = [1%Z; 1%Z]
  /\ RagEngine.rank <$> results = [1; 2]
  /\ Some <$> (RagEngine.document <$> results)
     = [RagEngine.documents twin_engine !! 1; RagEngine.documents twin_engine !! 0]
  /\ RagEngine.documents twin_engine !! 0 <> RagEngine.documents twin_engine !! 1
  /\ (fun r => RagEngine.document r !! "id") <$> results
     = [Some (Py.Str "faq_NA"); Some (Py.Str "faq_NA")].
Proof.
  cbn zeta. split; [vm_compute; reflexivity|]. split; [vm_compute; reflexivity|].
  split; [vm_compute; reflexivity|]. split; [|vm_compute; reflexivity].
  intros H.
  apply (f_equal (fun o : option Py.object => o ≫= (fun d => d !! "content"))) in H.
  vm_compute in H. discriminate.
Qed.

Lemma retrieve_context_empty_index_witness :
  (RagEngine.embeddings fresh_engine = None \/ RagEngine.embeddings fresh_engine = Some [])
  /\ RagEngine.retrieve_context dot sample_argsort fresh_engine "password" 3 = [].
Proof.
  split; [left; reflexivity|].
  apply (retrieve_context_empty_index dot sample_argsort fresh_engine "password" 3).
  left. reflexivity.
Defined.

Lemma snapshot_roundtrip_witness :
  (forall data : @RagEngine.Snapshot (Z * Z),
     Some (RagEngine.complete (id data)) = Some (RagEngine.complete data))
  /\ RagEngine._load_vector_store (fun data => Some (RagEngine.complete data)) twin_engine
       (RagEngine._save_vector_store id twin_engine)
     = (true, twin_engine).
Proof.
  split; [reflexivity|].
  apply (snapshot_roundtrip id (fun data => Some (RagEngine.complete data))
           (fun data => eq_refl) twin_engine twin_engine).
Defined.

(** ** Chat orchestrator *)

Section ChatFacts.

Import Memory App.

Context {embedding score : Type}.
Variable cosine_similarity : embedding -> embedding -> score.
Variable argsort : list score -> list nat.
Variable format_percent : score -> string.
Variable repr_dict : Py.dict -> string.
Variable str_upper : string -> string.
Variable str_strip : string -> string.
Variable rag_engine : @RagEngine.RAGEngine embedding.
Variable llm_engine : LlmEngine.LLMEngine.
Variable requests_post : LlmEngine.Request -> LlmEngine.PostResult.
Variable time_time : nat -> Z.
Variable datetime_now : nat -> string.
Variable uuid4 : nat -> string.

Local Abbreviation retrieve :=
  (App.retrieve cosine_similarity argsort format_percent repr_dict str_upper rag_engine).
Local Abbreviation generate := (App.generate str_upper str_strip llm_engine requests_post).
Local Abbreviation reply := (App.reply str_upper str_strip llm_engine requests_post).
Local Abbreviation pipeline :=
  (App.pipeline cosine_similarity argsort format_percent repr_dict str_upper str_strip
     rag_engine llm_engine requests_post time_time datetime_now).
Local Abbreviation chat :=
  (App.chat cosine_similarity argsort format_percent repr_dict str_upper str_strip
     rag_engine llm_engine requests_post time_time datetime_now uuid4).
Local Abbreviation chats :=
  (App.chats cosine_similarity argsort format_percent repr_dict str_upper str_strip
     rag_engine llm_engine requests_post time_time datetime_now uuid4).

(** The [try] block, run from a world [w]. *)
Lemma pipeline_run (request : ChatRequest) (session_id : string) (t0 : Z) (w : World) :
  pipeline request session_id t0 w
  = match retrieve request with
    | Py.Raised e => (Py.Raised e, w)
    | Py.Returned (context_str, docs) =>
        let n := ticks w in
        let bot := reply request session_id (memory w) context_str in
        (Py.Returned
           (mkResponse true bot session_id (time_time (n + 7) - t0)%Z (length docs) None),
         mkWorld (n + 8)
           (mkMemory (max_messages (memory w))
              (<[session_id :=
                   deque_append
                     (deque_append (Spec.deque_of (memory w) session_id)
                        (ChatSpec.user_message datetime_now request n))
                     (ChatSpec.assistant_message datetime_now bot n)]>
                 (conversations (memory w)))
              (analytics_log (memory w)
               ++ ChatSpec.log_entries time_time datetime_now request session_id bot
                    (length docs) t0 n)))
    end.
Proof.
  unfold App.pipeline, App.reply. unfold bind at 1. cbn [get_memory].
  destruct (retrieve request) as [[context_str docs]|e]; [|reflexivity].
  destruct w as [n m]. cbn [ticks memory].
  unfold bind.
  repeat (first [rewrite add_message_run | rewrite log_message_run];
          cbn [ticks memory max_messages conversations analytics_log read ret fst snd]).
  unfold Spec.deque_of at 1. cbn [conversations max_messages].
  rewrite lookup_insert_eq, insert_insert_eq. cbn [default from_option id].
  unfold ChatSpec.log_entries, ChatSpec.user_message, ChatSpec.assistant_message.
  rewrite <- !app_assoc. cbn [app Py.or_empty].
  replace (n + 1) with (S n) by lia. replace (n + 2) with (S (S n)) by lia.
  replace (n + 3) with (S (S (S n))) by lia. replace (n + 4) with (S (S (S (S n)))) by lia.
  replace (n + 5) with (S (S (S (S (S n))))) by lia.
  replace (n + 6) with (S (S (S (S (S (S n)))))) by lia.
  replace (n + 7) with (S (S (S (S (S (S (S n))))))) by lia.
  replace (n + 8) with (S (S (S (S (S (S (S (S n)))))))) by lia.
  reflexivity.
Qed.

(** [chat], run from a world [w]. *)
Lemma chat_run (request : ChatRequest) (w : World) :
  chat request w
  = let (session_id, n) := ChatSpec.session_of uuid4 request w in
    let t0 := time_time (ticks w) in
    match pipeline request session_id t0 (mkWorld n (memory w)) with
    | (Py.Returned resp, w') => (resp, w')
    | (Py.Raised e, w') =>
        (mkResponse false "Internal error." session_id (time_time (ticks w') - t0)%Z 0 (Some e),
         mkWorld (S (ticks w')) (memory w'))
    end.
Proof.
  unfold App.chat, ChatSpec.session_of, bind. cbn [read ticks memory].
  destruct (session_id request) as [[|c s]|]; cbn [ret read ticks memory];
    destruct (pipeline request _ _ _) as [[resp|e] w']; reflexivity.
Qed.

(** C3.  When retrieval returns, [chat] answers [success=True] with no
    error, and its body is the generated text when generation succeeded
    and the fallback text, which quotes the query, when it failed.  When
    the context formatting of step 2 raises, which is the one exception
    that reaches the handler of [chat], the answer is [success=False]
    with the message of the exception and the time elapsed since [t0]. *)
Theorem chat_outcome (request : ChatRequest) (w : World) :
  let (session_id, n) := ChatSpec.session_of uuid4 request w in
  let resp := fst (chat request w) in
  let history := format_history_for_prompt (memory w) session_id 5 in
  match retrieve request with
  | Py.Raised e =>
      resp = mkResponse false "Internal error." session_id
               (time_time n - time_time (ticks w))%Z 0 (Some e)
  | Py.Returned (context_str, docs) =>
      let llm_result := generate request history context_str in
      success resp = true
      /\ error resp = None
      /\ response_session_id resp = session_id
      /\ context_used resp = length docs
      /\ response resp
         = (if LlmEngine.success llm_result
            then LlmEngine.response llm_result
            else LlmEngine.get_fallback_response (message request))
      /\ Spec.substring (message request)
           (LlmEngine.get_fallback_response (message request))
  end.
Proof.
  rewrite chat_run. destruct (ChatSpec.session_of uuid4 request w) as [session_id n].
  cbn zeta. rewrite pipeline_run.
  destruct (retrieve request) as [[context_str docs]|e]; cbn; [|reflexivity].
  repeat split.
  - unfold App.reply, bot_response_of.
    destruct (LlmEngine.success _); reflexivity.
  - apply fallback_contains_query.
Qed.

Lemma count_role_app (r : string) (l k : list LogEntry) :
  count_role r (l ++ k) = count_role r l + count_role r k.
Proof. unfold count_role. rewrite filter_app, length_app. reflexivity. Qed.

(** What one [chat] does to the memory. *)
Lemma chat_memory (request : ChatRequest) (w : World) :
  let (session_id, n) := ChatSpec.session_of uuid4 request w in
  let (resp, w') := chat request w in
  match retrieve request with
  | Py.Raised _ => success resp = false /\ memory w' = memory w
  | Py.Returned (_, docs) =>
      success resp = true
      /\ max_messages (memory w') = max_messages (memory w)
      /\ conversations (memory w')
         = <[session_id :=
               deque_append
                 (deque_append (Spec.deque_of (memory w) session_id)
                    (ChatSpec.user_message datetime_now request n))
                 (ChatSpec.assistant_message datetime_now (response resp) n)]>
             (conversations (memory w))
      /\ analytics_log (memory w')
         = analytics_log (memory w)
           ++ ChatSpec.log_entries time_time datetime_now request session_id
                (response resp) (length docs) (time_time (ticks w)) n
  end.
Proof.
  rewrite chat_run. destruct (ChatSpec.session_of uuid4 request w) as [session_id n].
  cbn zeta. rewrite pipeline_run.
  destruct (retrieve request) as [[context_str docs]|e]; cbn; repeat split.
Qed.

Lemma log_entries_counts (request : ChatRequest) (session_id bot : string)
    (used : nat) (t0 : Z) (n : nat) :
  let entries :=
    ChatSpec.log_entries time_time datetime_now request session_id bot used t0 n in
  length entries = 4 /\ count_role "user" entries = 2 /\ count_role "assistant" entries = 2.
Proof. repeat split. Qed.

(** A run of requests on a memory grows the analytics log by four
    records, two of each role, for every successful response. *)
Lemma chats_analytics (requests : list ChatRequest) : forall (w : World),
  let (resps, w') := chats requests w in
  length (analytics_log (memory w'))
  = length (analytics_log (memory w)) + 4 * ChatSpec.successes resps
  /\ count_role "user" (analytics_log (memory w'))
     = count_role "user" (analytics_log (memory w)) + 2 * ChatSpec.successes resps
  /\ count_role "assistant" (analytics_log (memory w'))
     = count_role "assistant" (analytics_log (memory w)) + 2 * ChatSpec.successes resps.
Proof.
  induction requests as [|request rest IH]; intros w.
  - cbn. unfold ChatSpec.successes. cbn. lia.
  - cbn [App.chats]. unfold bind at 1.
    pose proof (chat_memory request w) as Hc.
    destruct (ChatSpec.session_of uuid4 request w) as [session_id n].
    destruct (chat request w) as [resp w1].
    unfold bind at 1. specialize (IH w1).
    destruct (chats rest w1) as [resps w2]. cbn [ret].
    destruct IH as (IH1 & IH2 & IH3). rewrite IH1, IH2, IH3.
    unfold ChatSpec.successes. rewrite filter_cons.
    destruct (retrieve request) as [[context_str docs]|e].
    + destruct Hc as (Hs & _ & _ & Hlog). rewrite Hlog.
      rewrite decide_True by exact Hs.
      rewrite !count_role_app, length_app.
      destruct (log_entries_counts request session_id (response resp) (length docs)
                  (time_time (ticks w)) n) as (-> & -> & ->).
      cbn [length]. lia.
    + destruct Hc as (Hs & ->). rewrite decide_False by congruence. lia.
Qed.

Lemma two_appends (d : deque) (a b : Message) :
  length (items d) <= maxlen d ->
  deque_append (deque_append d a) b
  = mkDeque (maxlen d) (Spec.last_n (maxlen d) (items d ++ [a; b])).
Proof.
  intros Hlen.
  change (deque_append (deque_append d a) b)
    with (mkDeque (maxlen d) (items (deque_append (deque_append d a) b))).
  f_equal. rewrite deque_append_items.
  2: { cbn [deque_append maxlen]. rewrite deque_append_items by exact Hlen.
       apply last_n_length. }
  cbn [deque_append maxlen]. rewrite deque_append_items by exact Hlen.
  rewrite last_n_app_last_n, <- app_assoc. reflexivity.
Qed.

Lemma last_n_keeps_suffix {A} (n : nat) (pre suf : list A) :
  length suf <= n -> exists pre', Spec.last_n n (pre ++ suf) = pre' ++ suf.
Proof.
  intros H. unfold Spec.last_n. rewrite length_app.
  exists (drop (length pre + length suf - n) pre).
  apply drop_app_le. lia.
Qed.

(** What one [chat] does to a memory that satisfies the sliding-window
    invariant, in terms of the stored lists. *)
Lemma chat_effect (request : ChatRequest) (w : World) :
  Spec.bounded (memory w) ->
  let (session_id, n) := ChatSpec.session_of uuid4 request w in
  let (resp, w') := chat request w in
  let history := get_conversation_history (memory w) session_id in
  let user := ChatSpec.user_message datetime_now request n in
  let assistant := ChatSpec.assistant_message datetime_now (response resp) n in
  match retrieve request with
  | Py.Raised _ => success resp = false /\ memory w' = memory w
  | Py.Returned (_, docs) =>
      success resp = true
      /\ max_messages (memory w') = max_messages (memory w)
      /\ conversations (memory w')
         = <[session_id :=
               mkDeque (max_messages (memory w))
                 (Spec.last_n (max_messages (memory w)) (history ++ [user; assistant]))]>
             (conversations (memory w))
      /\ analytics_log (memory w')
         = analytics_log (memory w)
           ++ ChatSpec.log_entries time_time datetime_now request session_id
                (response resp) (length docs) (time_time (ticks w)) n
      /\ Spec.bounded (memory w')
  end.
Proof.
  intros Hb. pose proof (chat_memory request w) as H.
  destruct (ChatSpec.session_of uuid4 request w) as [session_id n].
  destruct (chat request w) as [resp w']. cbn zeta.
  destruct (retrieve request) as [[context_str docs]|e]; [|exact H].
  destruct H as (Hs & Hmax & Hconv & Hlog).
  destruct (deque_of_bounded (memory w) session_id Hb) as (Hm & Hlen & Hitems).
  rewrite two_appends, Hm, Hitems in Hconv by lia.
  do 4 (split; [assumption|]).
  intros k d H. rewrite Hmax. rewrite Hconv in H.
  destruct (decide (k = session_id)) as [->|Hne].
  - rewrite lookup_insert_eq in H. injection H as <-. cbn [maxlen items].
    split; [reflexivity|apply last_n_length].
  - rewrite lookup_insert_ne in H by congruence. apply (Hb _ _ H).
Qed.

Local Abbreviation held := (fun (_ : string) (d : deque) (n : nat) => length (items d) + n).

Lemma held_insert_fresh (c : gmap string deque) (k : string) (d : deque) :
  c !! k = None -> map_fold held 0 (<[k := d]> c) = length (items d) + map_fold held 0 c.
Proof.
  intros H. apply (map_fold_insert_L held 0 k d c); [|exact H].
  intros. lia.
Qed.

Lemma held_lookup (c : gmap string deque) (k : string) (d : deque) :
  c !! k = Some d -> map_fold held 0 c = length (items d) + map_fold held 0 (delete k c).
Proof.
  intros H. apply (map_fold_delete_L held 0 k d c); [|exact H].
  intros. lia.
Qed.

(** Replacing the history of one session changes the number of stored
    messages by the difference of the lengths. *)
Lemma stored_messages_insert (m : ConversationMemory) (k : string) (d : deque)
    (log : list LogEntry) :
  ChatSpec.stored_messages (mkMemory (max_messages m) (<[k := d]> (conversations m)) log)
  + length (get_conversation_history m k)
  = ChatSpec.stored_messages m + length (items d).
Proof.
  unfold ChatSpec.stored_messages, get_conversation_history. cbn [conversations].
  rewrite <- insert_delete_eq, held_insert_fresh by apply lookup_delete_eq.
  destruct (conversations m !! k) as [d0|] eqn:E.
  - rewrite (held_lookup _ _ _ E). lia.
  - rewrite delete_id by exact E. cbn. lia.
Qed.

Lemma history_le_stored (m : ConversationMemory) (k : string) :
  length (get_conversation_history m k) <= ChatSpec.stored_messages m.
Proof.
  unfold ChatSpec.stored_messages, get_conversation_history.
  destruct (conversations m !! k) as [d0|] eqn:E; [|cbn; lia].
  rewrite (held_lookup _ _ _ E). lia.
Qed.

(** While the capacity leaves room for every message of the run,
    nothing is evicted: each successful response adds two messages to
    the histories. *)
Lemma chats_stored (requests : list ChatRequest) : forall (w : World),
  Spec.bounded (memory w) ->
  ChatSpec.stored_messages (memory w) + 2 * length requests <= max_messages (memory w) ->
  let (resps, w') := chats requests w in
  ChatSpec.stored_messages (memory w')
  = ChatSpec.stored_messages (memory w) + 2 * ChatSpec.successes resps.
Proof.
  induction requests as [|request rest IH]; intros w Hb Hroom.
  - cbn. unfold ChatSpec.successes. cbn. lia.
  - cbn [App.chats]. unfold bind at 1. cbn [length] in Hroom.
    pose proof (chat_effect request w Hb) as Hc.
    destruct (ChatSpec.session_of uuid4 request w) as [session_id n].
    destruct (chat request w) as [resp w1]. cbn zeta in Hc.
    unfold bind at 1. specialize (IH w1).
    destruct (retrieve request) as [[context_str docs]|e].
    + destruct Hc as (Hs & Hmax & Hconv & Hlog & Hb1).
      pose proof (history_le_stored (memory w) session_id) as Hle.
      assert (Hst : ChatSpec.stored_messages (memory w1)
                    = ChatSpec.stored_messages (memory w) + 2).
      { pose proof (stored_messages_insert (memory w) session_id
                      (mkDeque (max_messages (memory w))
                         (Spec.last_n (max_messages (memory w))
                            (get_conversation_history (memory w) session_id
                             ++ [ChatSpec.user_message datetime_now request n;
                                 ChatSpec.assistant_message datetime_now (response resp) n])))
                      (analytics_log (memory w1))) as Hi.
        rewrite <- Hconv, <- Hmax in Hi. destruct (memory w1) as [mx cs lg] eqn:Em.
        cbn [max_messages conversations analytics_log items] in Hi.
        rewrite last_n_short in Hi by (rewrite length_app; cbn; cbn in Hmax; lia).
        rewrite length_app in Hi. cbn [length] in Hi. lia. }
      specialize (IH Hb1). rewrite Hst, Hmax in IH. specialize (IH ltac:(lia)).
      destruct (chats rest w1) as [resps w2]. cbn [ret].
      unfold ChatSpec.successes in *. rewrite filter_cons.
      rewrite decide_True by exact Hs. cbn [length]. lia.
    + destruct Hc as (Hs & Hm). rewrite Hm in IH. specialize (IH Hb ltac:(lia)).
      destruct (chats rest w1) as [resps w2]. cbn [ret].
      unfold ChatSpec.successes in *. rewrite filter_cons.
      rewrite decide_False by congruence. lia.
Qed.

(** C10.  On a memory that keeps the sliding-window invariant and has
    room for two messages (the shared instance starts so, with capacity
    10, and [chat] keeps the invariant), a successful [chat] makes the
    history of its session the last [max_messages] of the old history
    followed by the user message and the assistant message, so that it
    ends with these two, leaves every other session alone, and appends
    to the analytics log four records: the two written by [add_message],
    with [context_used = 0] and no processing time, then the two written
    by [chat] itself, with the number of retrieved documents and, on the
    assistant record, the processing time; a failed [chat] leaves the
    memory as it was.  After a run of requests on a fresh memory the
    analytics log holds four records, two of each role, for each
    successful response, whatever the capacity; when the capacity has
    room for every message of the run, the histories hold two messages
    for each successful response, and the analytics total is twice the
    number of messages held. *)
Theorem chat_appends_two_messages_four_records
    (request : ChatRequest) (w : World) (requests : list ChatRequest) (t capacity : nat) :
  Spec.bounded (memory w) ->
  2 <= max_messages (memory w) ->
  2 * length requests <= capacity ->
  (let (session_id, n) := ChatSpec.session_of uuid4 request w in
   let (resp, w') := chat request w in
   let history := get_conversation_history (memory w) session_id in
   let user := ChatSpec.user_message datetime_now request n in
   let assistant := ChatSpec.assistant_message datetime_now (response resp) n in
   match retrieve request with
   | Py.Raised _ => success resp = false /\ memory w' = memory w
   | Py.Returned (_, docs) =>
       success resp = true
       /\ max_messages (memory w') = max_messages (memory w)
       /\ conversations (memory w')
          = <[session_id :=
                mkDeque (max_messages (memory w))
                  (Spec.last_n (max_messages (memory w)) (history ++ [user; assistant]))]>
              (conversations (memory w))
       /\ (exists earlier,
             get_conversation_history (memory w') session_id
             = earlier ++ [user; assistant])
       /\ analytics_log (memory w')
          = analytics_log (memory w)
            ++ ChatSpec.log_entries time_time datetime_now request session_id
                 (response resp) (length docs) (time_time (ticks w)) n
       /\ Spec.bounded (memory w')
   end)
  /\ (forall any_capacity : nat,
        let (resps, w') := chats requests (mkWorld t (init any_capacity)) in
        get_analytics_summary (memory w')
        = mkSummary (4 * ChatSpec.successes resps) (2 * ChatSpec.successes resps)
            (2 * ChatSpec.successes resps))
  /\ (let (resps, w') := chats requests (mkWorld t (init capacity)) in
      let held_messages := ChatSpec.stored_messages (memory w') in
      held_messages = 2 * ChatSpec.successes resps
      /\ get_analytics_summary (memory w')
         = mkSummary (2 * held_messages) held_messages held_messages)
  /\ Spec.bounded conversation_memory
  /\ max_messages conversation_memory = 10.
Proof.
  intros Hb Hcap Hroom. split; [|split; [|split]].
  - pose proof (chat_effect request w Hb) as H.
    destruct (ChatSpec.session_of uuid4 request w) as [session_id n].
    destruct (chat request w) as [resp w']. cbn zeta in *.
    destruct (retrieve request) as [[context_str docs]|e]; [|exact H].
    destruct H as (Hs & Hmax & Hconv & Hlog & Hb').
    do 3 (split; [assumption|]). split; [|split; assumption].
    unfold get_conversation_history at 1. rewrite Hconv, lookup_insert_eq. cbn [items].
    apply last_n_keeps_suffix. cbn. lia.
  - intros c. pose proof (chats_analytics requests (mkWorld t (init c))) as H.
    destruct (chats requests (mkWorld t (init c))) as [resps w'].
    cbn [memory init analytics_log length] in H. unfold count_role in H at 2 4.
    cbn [filter list_filter length] in H. destruct H as (H1 & H2 & H3).
    unfold get_analytics_summary. rewrite H1, H2, H3. f_equal; lia.
  - pose proof (chats_analytics requests (mkWorld t (init capacity))) as H.
    pose proof (chats_stored requests (mkWorld t (init capacity)) (bounded_init capacity)) as Hst.
    assert (Hz : ChatSpec.stored_messages (init capacity) = 0) by apply map_fold_empty.
    destruct (chats requests (mkWorld t (init capacity))) as [resps w'].
    cbn [memory] in Hst. rewrite Hz in Hst. cbn [init max_messages] in Hst.
    cbn [memory init analytics_log length] in H.
    unfold count_role in H at 2 4.
    cbn [filter list_filter length] in H. destruct H as (H1 & H2 & H3).
    specialize (Hst ltac:(lia)).
    cbn zeta. split; [lia|].
    unfold get_analytics_summary. rewrite H1, H2, H3, Hst. f_equal; lia.
  - split; [apply bounded_init|reflexivity].
Qed.

End ChatFacts.

(** * Further properties *)

(** ** Conversation memory *)

Section MemoryMore.

Import Memory.

Variable datetime_now : nat -> string.

Lemma add_messages_log (calls : list Spec.Call) : forall (w : World),
  analytics_log (memory (snd (Spec.add_messages datetime_now calls w)))
  = analytics_log (memory w) ++ Spec.logged datetime_now (ticks w) calls.
Proof.
  induction calls as [|c rest IH]; intros w.
  - cbn. rewrite app_nil_r. reflexivity.
  - cbn [Spec.add_messages Spec.logged]. unfold bind. rewrite add_message_run.
    rewrite IH. cbn [memory ticks analytics_log].
    rewrite <- app_assoc. cbn [app].
    replace (ticks w + 2) with (S (S (ticks w))) by lia. reflexivity.
Qed.

Lemma logged_length (t : nat) (calls : list Spec.Call) :
  length (Spec.logged datetime_now t calls) = length calls.
Proof.
  revert t. induction calls as [|c rest IH]; intros t; cbn; [reflexivity|].
  rewrite IH. reflexivity.
Qed.

(** The analytics log is not windowed: a run of [add_message] calls on a
    fresh memory leaves one record for each call, in the order of the
    calls, each with [context_used = 0] and no processing time, however
    small the capacity of the histories. *)
Theorem analytics_log_mirrors_calls (n : nat) (calls : list Spec.Call) (t : nat) :
  let m := memory (snd (Spec.add_messages datetime_now calls (mkWorld t (init n)))) in
  analytics_log m = Spec.logged datetime_now t calls
  /\ analytics_total_messages (get_analytics_summary m) = length calls
  /\ Forall (fun e => context_used e = 0 /\ processing_time e = None) (analytics_log m).
Proof.
  pose proof (add_messages_log calls (mkWorld t (init n))) as H.
  cbn [memory ticks init analytics_log app] in H.
  cbn zeta. unfold get_analytics_summary. cbn [analytics_total_messages]. rewrite !H.
  split; [reflexivity|]. split; [apply logged_length|].
  clear H n. revert t. induction calls as [|c rest IH]; intros t; cbn; constructor; auto.
Qed.

(** For [n <= 0] the slice [history[-n:]] starts at index [-n]: the
    first [-n] messages are dropped, and with [n = 0] none is. *)
Theorem get_last_n_messages_nonpositive (m : ConversationMemory) (session_id : string)
    (n : Z) :
  (n <= 0)%Z ->
  get_last_n_messages m session_id n
  = drop (Z.to_nat (- n)) (get_conversation_history m session_id).
Proof.
  intros Hn. unfold get_last_n_messages.
  destruct (get_conversation_history m session_id) as [|x l] eqn:E.
  - rewrite drop_nil. reflexivity.
  - unfold Py.slice_from. destruct (Z.ltb_spec (- n) 0) as [H|_]; [lia|].
    destruct (Z.le_gt_cases (- n) (Z.of_nat (length (x :: l)))) as [H|H].
    + rewrite Z.min_l by exact H. reflexivity.
    + rewrite Z.min_r by lia. rewrite Nat2Z.id.
      rewrite !drop_ge by lia. reflexivity.
Qed.

(** [add_message] touches the history of its own session only, and only
    extends the analytics log. *)
Theorem add_message_frame session_id role content md (other : string) (w : World) :
  other <> session_id ->
  let w' := snd (add_message datetime_now session_id role content md w) in
  conversations (memory w') !! other = conversations (memory w) !! other
  /\ get_conversation_history (memory w') other
     = get_conversation_history (memory w) other
  /\ exists entry, analytics_log (memory w') = analytics_log (memory w) ++ [entry].
Proof.
  intros Hne. rewrite add_message_run. cbn [snd memory conversations analytics_log].
  assert (H : <[session_id := deque_append (Spec.deque_of (memory w) session_id)
                   (mkMessage role content (datetime_now (ticks w)) (Py.or_empty md))]>
                (conversations (memory w)) !! other
              = conversations (memory w) !! other)
    by (apply lookup_insert_ne; congruence).
  split; [exact H|]. split; [|eexists; reflexivity].
  unfold get_conversation_history. cbn [conversations]. rewrite H. reflexivity.
Qed.

(** After [clear_session], the next [add_message] of the session starts
    a new history holding that message alone (capacity permitting), and
    the records written before the clear are still in the log. *)
Theorem add_message_after_clear session_id role content md (w : World) :
  1 <= max_messages (memory w) ->
  let cleared := mkWorld (ticks w) (clear_session (memory w) session_id) in
  let w' := snd (add_message datetime_now session_id role content md cleared) in
  get_conversation_history (memory w') session_id
  = [mkMessage role content (datetime_now (ticks w)) (Py.or_empty md)]
  /\ exists entry, analytics_log (memory w') = analytics_log (memory w) ++ [entry].
Proof.
  intros Hcap. cbn zeta. rewrite add_message_run.
  cbn [snd memory ticks conversations analytics_log].
  split.
  - unfold get_conversation_history. cbn [conversations].
    rewrite lookup_insert_eq. unfold Spec.deque_of.
    rewrite clear_session_conversations, lookup_delete_eq. cbn.
    assert (Hm : max_messages (clear_session (memory w) session_id)
                 = max_messages (memory w)).
    { unfold clear_session. destruct (conversations (memory w) !! session_id); reflexivity. }
    rewrite Hm. destruct (Nat.leb_spec (max_messages (memory w)) 0); [lia|reflexivity].
  - rewrite clear_session_analytics. eexists. reflexivity.
Qed.

(** For [n >= 1] the transcript is the start-of-conversation sentence
    when the session has no message (or is unknown), and otherwise the
    header followed by one line for each of the last [n] messages (all
    of them when there are fewer), oldest first. *)
Theorem format_history_last_n (m : ConversationMemory) (session_id : string) (n : Z) :
  (1 <= n)%Z ->
  format_history_for_prompt m session_id n
  = match get_conversation_history m session_id with
    | [] => start_of_conversation
    | _ :: _ =>
        Py.join Py.nl
          ("Previous conversation:"
           :: map format_line
                (Spec.last_n (Z.to_nat n) (get_conversation_history m session_id)))
    end.
Proof. exact (format_history_positive m session_id n). Qed.

Lemma history_init (n : nat) (session_id : string) :
  get_conversation_history (Memory.init n) session_id = [].
Proof. unfold get_conversation_history. cbn. rewrite lookup_empty. reflexivity. Qed.

Section Stats.

Context {duration : Type}.
Variable total_seconds : string -> string -> duration.

Lemma stats_total_length (m : ConversationMemory) (session_id : string) :
  stats_total (get_session_stats total_seconds m session_id)
  = length (get_conversation_history m session_id).
Proof.
  unfold get_session_stats.
  destruct (get_conversation_history m session_id) as [|x l] eqn:E; [reflexivity|].
  destruct (last (x :: l)) eqn:El; [reflexivity|].
  apply last_None in El. discriminate.
Qed.

Lemma count_messages_le (history : list Message) :
  count_messages "user" history + count_messages "assistant" history <= length history.
Proof.
  unfold count_messages. induction history as [|x l IH]; [cbn; lia|].
  rewrite !filter_cons.
  destruct (decide (role x = "user")) as [Hu|Hu];
    destruct (decide (role x = "assistant")) as [Ha|Ha]; cbn [length]; try lia.
  rewrite Hu in Ha. discriminate.
Qed.

(** The session statistics describe the retained window, not the
    conversation: after a run of [add_message] calls on a fresh memory
    of capacity [n], [total_messages] is the number of messages sent to
    the session capped at [n], and the user and assistant counts add up
    to at most that. *)
Theorem session_stats_window (n : nat) (calls : list Spec.Call) (t : nat)
    (session_id : string) :
  let m := memory (snd (Spec.add_messages datetime_now calls (mkWorld t (init n)))) in
  let stats := get_session_stats total_seconds m session_id in
  stats_total stats = Nat.min n (length (Spec.sent datetime_now t calls session_id))
  /\ fst (stats_by_role stats) + snd (stats_by_role stats) <= stats_total stats
  /\ export_messages (export_conversation total_seconds m session_id)
     = Spec.last_n n (Spec.sent datetime_now t calls session_id).
Proof.
  cbn zeta.
  destruct (add_messages_history datetime_now calls (mkWorld t (init n)) (bounded_init n))
    as (_ & _ & Hh).
  specialize (Hh session_id). cbn [memory ticks] in Hh.
  rewrite history_init in Hh. cbn [app max_messages Memory.init] in Hh.
  split; [|split].
  - rewrite stats_total_length, Hh. unfold Spec.last_n. rewrite length_drop.
    lia.
  - rewrite stats_total_length. unfold get_session_stats.
    destruct (get_conversation_history _ session_id) as [|x l] eqn:E; [cbn; lia|].
    destruct (last (x :: l)) eqn:El; [|cbn; lia].
    cbn [stats_by_role fst snd]. apply count_messages_le.
  - cbn [export_conversation export_messages]. exact Hh.
Qed.

End Stats.

End MemoryMore.

(** ** Completion client *)

Section LlmMore.

Import LlmEngine.

(** [str.upper] and [str.strip], whatever they do to a string. *)
Variable str_upper : string -> string.
Variable str_strip : string -> string.

Local Abbreviation ask_llm := (LlmEngine.ask_llm str_upper str_strip).

(** Without an API key ([None] or the empty string) [ask_llm] does not
    call the service: whatever the service would answer, the result is
    the failure whose message is the provider name in upper case
    followed by [_API_KEY not configured]. *)
Theorem ask_llm_unconfigured (post post' : Request -> PostResult) (self : LLMEngine)
    (prompt_tuple : string * string) (temperature : Q) (max_tokens : Z) :
  Py.truthy (api_key self) = false ->
  ask_llm post self prompt_tuple temperature max_tokens
  = ask_llm post' self prompt_tuple temperature max_tokens
  /\ ask_llm post self prompt_tuple temperature max_tokens
     = failure (str_upper (provider self) +:+ "_API_KEY not configured").
Proof.
  intros H. unfold LlmEngine.ask_llm. destruct prompt_tuple as [sys usr]. rewrite H.
  cbn. auto.
Qed.

(** The result of [ask_llm] carries either a response or an error, never
    both: it succeeds exactly when the key is set and the service
    delivers a text, the response is then [str.strip] of that text and
    there is no error; otherwise the response is empty and the error is
    set. *)
Theorem ask_llm_result (post : Request -> PostResult) (self : LLMEngine)
    (system_prompt user_prompt : string) (temperature : Q) (max_tokens : Z) :
  let request :=
    mkRequest (api_url self) ("Bearer " +:+ default "None" (api_key self)) (model self)
      [("system", system_prompt); ("user", user_prompt)] temperature max_tokens in
  let r := ask_llm post self (system_prompt, user_prompt) temperature max_tokens in
  match (if Py.truthy (api_key self) then Spec.delivered (post request) else None) with
  | Some c => success r = true /\ response r = str_strip c /\ error r = None
  | None => success r = false /\ response r = EmptyString /\ is_Some (error r)
  end.
Proof.
  cbn zeta. unfold LlmEngine.ask_llm. destruct (Py.truthy (api_key self)); cbn [negb].
  - destruct (post _) as [code text [c|e]| |e]; cbn [Spec.delivered];
      try destruct (code =? 200)%Z; cbn; eauto.
  - cbn. eauto.
Qed.

End LlmMore.

(** ** Prompt assembly in the orchestrator *)

Section PromptMore.

Import LlmEngine.

Lemma join_cons_nonempty (sep x : string) (l : list string) :
  x <> EmptyString -> Py.join sep (x :: l) <> EmptyString.
Proof.
  intros Hx. unfold Py.join. destruct x as [|c x]; [congruence|].
  destruct l; cbn; discriminate.
Qed.

Lemma format_history_nonempty (m : Memory.ConversationMemory) (session_id : string) (n : Z) :
  Memory.format_history_for_prompt m session_id n <> EmptyString.
Proof.
  unfold Memory.format_history_for_prompt.
  destruct (Memory.get_last_n_messages m session_id n); [discriminate|].
  apply join_cons_nonempty. discriminate.
Qed.

(** The transcript handed to [build_prompt] by [chat] is never empty (a
    session without messages gives the start-of-conversation sentence),
    so the history block is always part of the payload, in front of what
    [build_prompt] produces without a history. *)
Theorem history_block_always_present (m : Memory.ConversationMemory)
    (session_id user_query context mode : string) (n : Z) :
  let history := Memory.format_history_for_prompt m session_id n in
  snd (build_prompt user_query context (Some history) mode)
  = "Conversation History:" +:+ Py.nl +:+ history +:+ Py.nl
    +:+ snd (build_prompt user_query context None mode).
Proof.
  cbn zeta. pose proof (format_history_nonempty m session_id n) as Hne.
  destruct (Memory.format_history_for_prompt m session_id n) as [|c h]; [congruence|].
  unfold build_prompt. cbn [snd Py.truthy default from_option id].
  destruct context as [|c' ctx]; cbn [Py.truthy];
    rewrite ?append_assoc; reflexivity.
Qed.

End PromptMore.

(** ** Document store *)

Section LoaderMore.

Variable fs : string -> Py.json_file.

(** A successful load replaces the three attributes: the store that
    results is determined by the directory and the two files, whatever
    was loaded before, and its documents are the FAQ documents followed
    by the policy documents, one for each entry. *)
Theorem load_data_replaces (a b : Database.KnowledgeBase) :
  Database.data_dir a = Database.data_dir b ->
  fst (Database.load_data fs a) = true ->
  Database.load_data fs b = Database.load_data fs a
  /\ Database.all_documents (snd (Database.load_data fs a))
     = map Database.faq_document (Database.faqs (snd (Database.load_data fs a)))
       ++ map Database.policy_document (Database.policies (snd (Database.load_data fs a)))
  /\ length (Database.all_documents (snd (Database.load_data fs a)))
     = length (Database.faqs (snd (Database.load_data fs a)))
       + length (Database.policies (snd (Database.load_data fs a))).
Proof.
  intros Hdir. unfold Database.load_data. rewrite <- Hdir.
  destruct (fs (Py.path_join (Database.data_dir a) "faqs.json")) as [| |f];
    cbn; try discriminate.
  destruct (fs (Py.path_join (Database.data_dir a) "policies.json")) as [| |p];
    cbn; try discriminate.
  intros _. unfold Database._prepare_documents. cbn.
  rewrite length_app, !length_map. auto.
Qed.

End LoaderMore.

Section DocumentIds.

Lemma append_inj_l (p a b : string) : p +:+ a = p +:+ b -> a = b.
Proof. induction p as [|c p IH]; cbn; [auto|]. intros [= H]. auto. Qed.

Lemma faq_document_id (faq : Py.dict) :
  Spec.id_of (Database.faq_document faq) = Some (Py.Str ("faq_" +:+ Py.get faq "id" "NA")).
Proof. reflexivity. Qed.

Lemma policy_document_id (policy : Py.dict) :
  Spec.id_of (Database.policy_document policy)
  = Some (Py.Str ("policy_" +:+ Py.get policy "id" "NA")).
Proof. reflexivity. Qed.

Lemma NoDup_fmap_inj_on {A B} (f : A -> B) (l : list A) :
  (forall x y, x ∈ l -> y ∈ l -> f x = f y -> x = y) -> NoDup l -> NoDup (f <$> l).
Proof.
  intros Hinj Hnd. induction Hnd as [|x l Hx Hnd IH]; [constructor|].
  cbn. apply NoDup_cons. split.
  - intros Hin. apply list_elem_of_fmap in Hin as (y & Hxy & Hy).
    apply Hx. rewrite (Hinj x y); [exact Hy|left|right; exact Hy|exact Hxy].
  - apply IH. intros a b Ha Hb. apply Hinj; right; assumption.
Qed.

(** Distinct source ids give distinct document ids. *)
Lemma prepared_ids_NoDup (kb : Database.KnowledgeBase) :
  NoDup ((fun e => Py.get e "id" "NA") <$> Database.faqs kb) ->
  NoDup ((fun e => Py.get e "id" "NA") <$> Database.policies kb) ->
  NoDup (Spec.id_of <$> Database._prepare_documents kb)
  /\ (forall faq policy,
        Spec.id_of (Database.faq_document faq) <> Spec.id_of (Database.policy_document policy)).
Proof.
  intros Hf Hp.
  assert (Hcross : forall faq policy,
    Spec.id_of (Database.faq_document faq) <> Spec.id_of (Database.policy_document policy)).
  { intros faq policy. rewrite faq_document_id, policy_document_id. cbn. discriminate. }
  split; [|exact Hcross].
  unfold Database._prepare_documents. rewrite fmap_app. apply NoDup_app.
  split; [|split].
  - rewrite <- list_fmap_compose.
    replace (Spec.id_of ∘ Database.faq_document)
      with ((fun s => Some (Py.Str ("faq_" +:+ s))) ∘ (fun e : Py.dict => Py.get e "id" "NA"))
      by reflexivity.
    rewrite list_fmap_compose. apply NoDup_fmap_inj_on; [|exact Hf].
    intros x y _ _ [= H]. exact (append_inj_l _ _ _ H).
  - intros i Hi Hi'.
    apply list_elem_of_fmap in Hi as (d & -> & Hd).
    apply list_elem_of_fmap in Hi' as (d' & Heq & Hd').
    apply list_elem_of_fmap in Hd as (faq & -> & _).
    apply list_elem_of_fmap in Hd' as (policy & -> & _).
    exact (Hcross faq policy Heq).
  - rewrite <- list_fmap_compose.
    replace (Spec.id_of ∘ Database.policy_document)
      with ((fun s => Some (Py.Str ("policy_" +:+ s))) ∘ (fun e : Py.dict => Py.get e "id" "NA"))
      by reflexivity.
    rewrite list_fmap_compose. apply NoDup_fmap_inj_on; [|exact Hp].
    intros x y _ _ [= H]. exact (append_inj_l _ _ _ H).
Qed.


End DocumentIds.

Section DocumentLookup.

Import Database.

Lemma find_by_id_spec (docs : list Py.object) (doc_id : string) :
  match find_by_id docs doc_id with
  | Py.Returned (Some doc) =>
      exists before after,
        docs = before ++ doc :: after
        /\ Spec.id_of doc = Some (Py.Str doc_id)
        /\ Forall (fun d => is_Some (Spec.id_of d) /\ Spec.id_of d <> Some (Py.Str doc_id)) before
  | Py.Returned None =>
      Forall (fun d => is_Some (Spec.id_of d) /\ Spec.id_of d <> Some (Py.Str doc_id)) docs
  | Py.Raised e =>
      e = "'id'"
      /\ exists before d after,
           docs = before ++ d :: after
           /\ Spec.id_of d = None
           /\ Forall (fun d => is_Some (Spec.id_of d) /\ Spec.id_of d <> Some (Py.Str doc_id))
                before
  end.
Proof.
  induction docs as [|d docs IH]; cbn [find_by_id]; [constructor|].
  unfold Py.getitem. fold (Spec.id_of d).
  destruct (Spec.id_of d) as [[s|x]|] eqn:Ed.
  - destruct (String.eqb_spec s doc_id) as [->|Hne].
    + exists [], docs. repeat split; [exact Ed|constructor].
    + assert (Hd : is_Some (Spec.id_of d) /\ Spec.id_of d <> Some (Py.Str doc_id))
        by (rewrite Ed; split; [eauto|congruence]).
      destruct (find_by_id docs doc_id) as [[doc|]|e].
      * destruct IH as (before & after & -> & Hid & Hb).
        exists (d :: before), after. repeat split; [exact Hid|constructor; assumption].
      * constructor; assumption.
      * destruct IH as (-> & before & d' & after & -> & Hid & Hb).
        split; [reflexivity|]. exists (d :: before), d', after.
        repeat split; [exact Hid|constructor; assumption].
  - assert (Hd : is_Some (Spec.id_of d) /\ Spec.id_of d <> Some (Py.Str doc_id))
      by (rewrite Ed; split; [eauto|congruence]).
    destruct (find_by_id docs doc_id) as [[doc|]|e].
    + destruct IH as (before & after & -> & Hid & Hb).
      exists (d :: before), after. repeat split; [exact Hid|constructor; assumption].
    + constructor; assumption.
    + destruct IH as (-> & before & d' & after & -> & Hid & Hb).
      split; [reflexivity|]. exists (d :: before), d', after.
      repeat split; [exact Hid|constructor; assumption].
  - split; [reflexivity|]. exists [], d, docs. repeat split; [exact Ed|constructor].
Qed.

(** [get_document_by_id] returns the first document carrying the id,
    every document before it having another id; it returns [None] only
    when every document has an id and none has this one; and it raises
    [KeyError('id')] only when a document without an id comes before
    any document carrying the id, every document before that one having
    another id.  The three conditions exclude one another. *)
Theorem get_document_by_id_first_match (self : KnowledgeBase) (doc_id : string) :
  match get_document_by_id self doc_id with
  | Py.Returned (Some doc) =>
      exists before after,
        all_documents self = before ++ doc :: after
        /\ Spec.id_of doc = Some (Py.Str doc_id)
        /\ Forall (fun d => is_Some (Spec.id_of d) /\ Spec.id_of d <> Some (Py.Str doc_id)) before
  | Py.Returned None =>
      Forall (fun d => is_Some (Spec.id_of d) /\ Spec.id_of d <> Some (Py.Str doc_id))
        (all_documents self)
  | Py.Raised e =>
      e = "'id'"
      /\ exists before d after,
           all_documents self = before ++ d :: after
           /\ Spec.id_of d = None
           /\ Forall (fun d => is_Some (Spec.id_of d) /\ Spec.id_of d <> Some (Py.Str doc_id))
                before
  end.
Proof. apply find_by_id_spec. Qed.



End DocumentLookup.

(** ** Embedding index *)

Section IndexMore.

Import RagEngine.

Context {embedding score bytes : Type}.
Variable cosine_similarity : embedding -> embedding -> score.
Variable score_leb : score -> score -> bool.
Variable argsort : list score -> list nat.
Variable pickle_loads : bytes -> option (@Loaded embedding).

(** The three outcomes of [_load_vector_store].  It answers [True] only
    after reading a file whose model name is the engine's own and which
    holds vectors and documents, and then installs both and keeps the
    model name and the encoder.  It answers [False] with the engine as
    it was; or, when the file has the right model name and the vectors
    but no documents, it answers [False] after the vectors of the file
    have replaced those of the engine, the documents being the old
    ones. *)
Theorem load_vector_store_outcome (self : RAGEngine) (file : option bytes) :
  let result := _load_vector_store pickle_loads self file in
  (fst result = false /\ snd result = self)
  \/ (fst result = false
      /\ exists b data stored,
           file = Some b /\ pickle_loads b = Some data
           /\ loaded_model_name data = Some (model_name self)
           /\ loaded_embeddings data = Some stored
           /\ loaded_documents data = None
           /\ snd result = mkRAG (model_name self) (model self) stored (documents self))
  \/ (fst result = true
      /\ exists b data stored docs,
           file = Some b /\ pickle_loads b = Some data
           /\ loaded_model_name data = Some (model_name self)
           /\ loaded_embeddings data = Some stored
           /\ loaded_documents data = Some docs
           /\ snd result = mkRAG (model_name self) (model self) stored docs).
Proof.
  cbn zeta. unfold _load_vector_store.
  destruct file as [b|]; [|left; auto].
  destruct (pickle_loads b) as [data|] eqn:E; [|left; auto].
  destruct (loaded_model_name data) as [name|] eqn:En; [|left; auto].
  destruct (String.eqb_spec name (model_name self)) as [->|Hne];
    cbn [negb]; [|left; auto].
  destruct (loaded_embeddings data) as [stored|] eqn:Ee; [|left; auto].
  destruct (loaded_documents data) as [docs|] eqn:Ed; right; [right|left];
    (split; [reflexivity|]).
  - exists b, data, stored, docs. auto 10.
  - exists b, data, stored. auto 10.
Qed.

(** The number of results.  With as many documents as stored vectors,
    [retrieve_context] returns [min top_k n] results out of [n] for
    [top_k >= 1]; for [top_k = 0] the slice [[-0:]] keeps everything and
    all [n] documents come back, and for a negative [top_k] all but the
    [-top_k] lowest-scoring ones do.  Of [argsort] this uses only that
    it returns each position once. *)
Theorem retrieve_context_count (self : RAGEngine) (query : string) (top_k : Z)
    (encode : string -> embedding) (stored : list embedding) :
  Spec.permutes argsort ->
  model self = Some encode ->
  embeddings self = Some stored ->
  length (documents self) = length stored ->
  length (retrieve_context cosine_similarity argsort self query top_k)
  = if (1 <=? top_k)%Z then Nat.min (Z.to_nat top_k) (length stored)
    else length stored - Z.to_nat (- top_k).
Proof.
  intros Hp Hm He Hlen.
  pose proof (retrieve_context_positions cosine_similarity argsort Hp self query top_k
                encode stored Hm He Hlen) as HF.
  apply Forall2_length in HF. rewrite <- HF, (top_indices_length argsort Hp).
  unfold Spec.scores, Spec.cut. rewrite Hm, He.
  unfold similarities_of. rewrite length_map.
  destruct (1 <=? top_k)%Z; lia.
Qed.

(** The results are the best of the corpus: with as many documents as
    stored vectors, every position of the corpus that [retrieve_context]
    does not return scores no higher than each result it returns. *)
Theorem retrieve_context_highest (self : RAGEngine) (query : string) (top_k : Z)
    (encode : string -> embedding) (stored : list embedding) :
  Spec.sorts score_leb argsort ->
  model self = Some encode ->
  embeddings self = Some stored ->
  length (documents self) = length stored ->
  let results := retrieve_context cosine_similarity argsort self query top_k in
  let all_scores := Spec.scores cosine_similarity self query in
  exists positions : list nat,
    Forall2 (fun i r => documents self !! i = Some (document r)
                        /\ all_scores !! i = Some (result_score r)) positions results
    /\ forall i s, all_scores !! i = Some s -> i ∉ positions ->
         Forall (fun r => score_leb s (result_score r) = true) results.
Proof.
  intros [Hp Hsorted] Hm He Hlen. cbn zeta.
  pose proof (retrieve_context_positions cosine_similarity argsort Hp self query top_k
                encode stored Hm He Hlen) as HF.
  set (sims := Spec.scores cosine_similarity self query) in *.
  exists (top_indices_of argsort sims top_k). split; [exact HF|].
  intros i s Hs Hi. apply Forall_forall. intros r Hr.
  apply list_elem_of_lookup in Hr as [j Hj].
  destruct (Forall2_lookup_r _ _ _ _ _ HF Hj) as (p & Hp' & _ & Hscore).
  apply list_elem_of_lookup_2 in Hp'.
  rewrite (top_indices_drop argsort Hp) in Hi, Hp'. rewrite elem_of_reverse in Hp', Hi.
  specialize (Hsorted sims).
  rewrite <- (take_drop (Spec.cut (length sims) top_k) (argsort sims)) in Hsorted.
  assert (Hin : i ∈ argsort sims)
    by (apply (argsort_elem argsort Hp); apply lookup_lt_Some in Hs; exact Hs).
  rewrite <- (take_drop (Spec.cut (length sims) top_k) (argsort sims)) in Hin.
  apply elem_of_app in Hin as [Hin|Hin]; [|contradiction].
  exact (StronglySorted_app_1_elem_of _ _ _ _ _ Hsorted Hin Hp' _ _ Hs Hscore).
Qed.

End IndexMore.

(** ** Context formatting and the orchestrator *)

Section ContextMore.

Import RagEngine.

Context {embedding score : Type}.
Variable cosine_similarity : embedding -> embedding -> score.
Variable argsort : list score -> list nat.
Variable format_percent : score -> string.
Variable repr_dict : Py.dict -> string.
Variable str_upper : string -> string.

Lemma collect_members (docs : list Py.object) (sims : list score) (idxs : list nat) :
  forall acc res,
  collect docs sims idxs acc = Some res ->
  Forall (fun r => document r ∈ docs) acc ->
  Forall (fun r => document r ∈ docs) res.
Proof.
  induction idxs as [|i idxs IH]; intros acc res; cbn.
  - intros [= <-]. auto.
  - destruct (docs !! i) as [doc|] eqn:Ed; [|discriminate].
    destruct (sims !! i) as [s|]; [|discriminate].
    intros H Hacc. apply (IH _ _ H). apply Forall_app. split; [exact Hacc|].
    repeat constructor. cbn. eapply list_elem_of_lookup_2, Ed.
Qed.

(** Every result of [retrieve_context] carries a document of the engine. *)
Lemma retrieve_context_members (self : RAGEngine) (query : string) (top_k : Z) :
  Forall (fun r => document r ∈ documents self)
    (retrieve_context cosine_similarity argsort self query top_k).
Proof.
  unfold retrieve_context.
  destruct (embeddings self) as [[|v vs]|]; try constructor.
  destruct (model self) as [encode|]; try constructor.
  cbn zeta. destruct (collect _ _ _ _) as [res|] eqn:E; [|constructor].
  eapply collect_members; [exact E|constructor].
Qed.

Lemma format_item_returns (i : nat) (item : RetrievalResult) :
  Spec.well_formed (document item) ->
  exists lines, format_item format_percent repr_dict str_upper i item = Py.Returned lines.
Proof.
  intros ((ty & Hty) & (cat & Hcat) & (content & Hcontent)).
  unfold format_item, Py.getitem. rewrite Hty, Hcat, Hcontent. eauto.
Qed.

Lemma format_items_returns (items : list RetrievalResult) : forall (i : nat) (ctx : list string),
  Forall (fun r => Spec.well_formed (document r)) items ->
  exists more, format_items format_percent repr_dict str_upper i items ctx = Py.Returned (ctx ++ more).
Proof.
  induction items as [|item items IH]; intros i ctx H; cbn.
  - exists []. rewrite app_nil_r. reflexivity.
  - apply Forall_cons in H as [Hitem H].
    destruct (format_item_returns i item Hitem) as [lines ->].
    destruct (IH (S i) (ctx ++ lines) H) as [more ->].
    exists (lines ++ more). rewrite app_assoc. reflexivity.
Qed.

Lemma format_items_extends (items : list RetrievalResult) :
  forall (i : nat) (ctx ctx' : list string),
  format_items format_percent repr_dict str_upper i items ctx = Py.Returned ctx' ->
  exists more, ctx' = ctx ++ more.
Proof.
  induction items as [|item items IH]; intros i ctx ctx'; cbn.
  - intros [= <-]. exists []. rewrite app_nil_r. reflexivity.
  - destruct (format_item format_percent repr_dict str_upper i item) as [lines|e]; [|discriminate].
    intros H. apply IH in H as [more ->]. exists (lines ++ more).
    rewrite app_assoc. reflexivity.
Qed.

(** The context string is never empty: without results it is the
    sentence saying so.  Hence a prompt built from it always carries a
    [Context] block, located between the history and the question. *)
Theorem context_block_always_present (retrieved_docs : list RetrievalResult)
    (context user_query mode : string) :
  format_context format_percent repr_dict str_upper retrieved_docs = Py.Returned context ->
  context <> EmptyString
  /\ format_context format_percent repr_dict str_upper []
     = Py.Returned "No relevant information found."
  /\ snd (LlmEngine.build_prompt user_query context None mode)
     = "Context:" +:+ Py.nl +:+ context +:+ Py.nl
       +:+ "User Question:" +:+ Py.nl +:+ user_query +:+ Py.nl.
Proof.
  intros H.
  assert (Hne : context <> EmptyString).
  { unfold format_context in H. destruct retrieved_docs as [|r rest].
    - injection H as <-. discriminate.
    - destruct (format_items _ _ _ _ _) as [ctx|e] eqn:E; [|discriminate].
      injection H as <-. apply format_items_extends in E as [more ->].
      cbn [app]. apply join_cons_nonempty. discriminate. }
  split; [exact Hne|]. split; [reflexivity|].
  destruct context as [|c ctx]; [congruence|].
  unfold LlmEngine.build_prompt. cbn [snd Py.truthy]. rewrite ?append_assoc. reflexivity.
Qed.

(** On an engine whose documents all have the keys [type] (a string),
    [category] and [content], [get_relevant_context] never raises. *)
Lemma get_relevant_context_returns (self : RAGEngine) (query : string) (top_k : Z) :
  Forall Spec.well_formed (documents self) ->
  exists formatted,
    get_relevant_context cosine_similarity argsort format_percent repr_dict str_upper
      self query top_k
    = Py.Returned (formatted, retrieve_context cosine_similarity argsort self query top_k).
Proof.
  intros Hwf. unfold get_relevant_context, format_context.
  pose proof (retrieve_context_members self query top_k) as Hmem.
  destruct (retrieve_context cosine_similarity argsort self query top_k) as [|r rest];
    [eauto|].
  destruct (format_items_returns (r :: rest) 1 ["📚 Relevant Information:" +:+ Py.nl])
    as [more ->]; [|eauto].
  rewrite Forall_forall in Hwf. eapply Forall_impl; [exact Hmem|].
  intros x Hx. apply Hwf, Hx.
Qed.

Lemma prepared_well_formed (kb : Database.KnowledgeBase) :
  Forall Spec.well_formed (Database._prepare_documents kb).
Proof.
  unfold Database._prepare_documents. apply Forall_app.
  split; apply Forall_fmap, Forall_forall; intros e _;
    (split; [eexists; reflexivity|split; eexists; reflexivity]).
Qed.

(** On an engine that serves the documents of a successfully loaded
    store, [get_relevant_context] never raises: it returns the results
    of [retrieve_context] with their formatted context. *)
Theorem get_relevant_context_after_load (fs : string -> Py.json_file)
    (kb : Database.KnowledgeBase) (self : RAGEngine) (query : string) (top_k : Z) :
  fst (Database.load_data fs kb) = true ->
  documents self = Database.get_all_documents (snd (Database.load_data fs kb)) ->
  exists formatted,
    get_relevant_context cosine_similarity argsort format_percent repr_dict str_upper
      self query top_k
    = Py.Returned (formatted, retrieve_context cosine_similarity argsort self query top_k).
Proof.
  intros Hload Hdocs. apply get_relevant_context_returns. rewrite Hdocs.
  revert Hload. unfold Database.load_data.
  destruct (fs (Py.path_join (Database.data_dir kb) "faqs.json")) as [| |f];
    cbn; try discriminate.
  destruct (fs (Py.path_join (Database.data_dir kb) "policies.json")) as [| |p];
    cbn; try discriminate.
  intros _.
  apply (prepared_well_formed (Database.mkKB (Database.data_dir kb) f p
                                 (Database.all_documents kb))).
Qed.

End ContextMore.

Section ChatMore.

Import Memory App.

Context {embedding score : Type}.
Variable cosine_similarity : embedding -> embedding -> score.
Variable argsort : list score -> list nat.
Variable format_percent : score -> string.
Variable repr_dict : Py.dict -> string.
Variable str_upper : string -> string.
Variable str_strip : string -> string.
Variable rag_engine : @RagEngine.RAGEngine embedding.
Variable llm_engine : LlmEngine.LLMEngine.
Variable requests_post : LlmEngine.Request -> LlmEngine.PostResult.
Variable time_time : nat -> Z.
Variable datetime_now : nat -> string.
Variable uuid4 : nat -> string.

Local Abbreviation retrieve :=
  (App.retrieve cosine_similarity argsort format_percent repr_dict str_upper rag_engine).
Local Abbreviation chat :=
  (App.chat cosine_similarity argsort format_percent repr_dict str_upper str_strip
     rag_engine llm_engine requests_post time_time datetime_now uuid4).

Lemma chat_success_iff (request : ChatRequest) (w : World) :
  success (fst (chat request w)) = true <-> exists r, retrieve request = Py.Returned r.
Proof.
  pose proof (chat_memory cosine_similarity argsort format_percent repr_dict str_upper str_strip
                rag_engine llm_engine requests_post time_time datetime_now uuid4 request w) as H.
  destruct (ChatSpec.session_of uuid4 request w) as [sid n].
  destruct (chat request w) as [resp w']. cbn [fst].
  destruct (retrieve request) as [[ctx docs]|e].
  - destruct H as [-> _]. split; eauto.
  - destruct H as [-> _]. split; [discriminate|]. intros [r Hr]. discriminate.
Qed.

(** [chat] answers [success=True] whenever retrieval is switched off, and
    whenever every document of the engine has the keys [type] (a
    string), [category] and [content]: no failure of the completion
    service and no state of the memory makes it answer [success=False]. *)
Theorem chat_never_fails (request : ChatRequest) (w : World) :
  include_context request = false \/ Forall Spec.well_formed (RagEngine.documents rag_engine) ->
  success (fst (chat request w)) = true.
Proof.
  intros H. apply chat_success_iff. unfold App.retrieve.
  destruct (include_context request) eqn:E; [|eauto].
  destruct H as [H|H]; [discriminate|].
  destruct (get_relevant_context_returns cosine_similarity argsort format_percent
              repr_dict str_upper rag_engine (message request) (top_k request) H)
    as [formatted ->].
  eauto.
Qed.

(** The history and the transcript after a successful [chat]. *)
Lemma chat_history_suffix (request : ChatRequest) (w : World) :
  Spec.bounded (memory w) ->
  2 <= max_messages (memory w) ->
  success (fst (chat request w)) = true ->
  let session_id := fst (ChatSpec.session_of uuid4 request w) in
  let resp := fst (chat request w) in
  let m' := memory (snd (chat request w)) in
  (exists earlier,
     get_conversation_history m' session_id
     = earlier ++ [ChatSpec.user_message datetime_now request
                     (snd (ChatSpec.session_of uuid4 request w));
                   ChatSpec.assistant_message datetime_now (response resp)
                     (snd (ChatSpec.session_of uuid4 request w))])
  /\ (exists lines,
        format_history_for_prompt m' session_id 5
        = Py.join Py.nl (lines ++ ["User: " +:+ message request;
                                   "Assistant: " +:+ response resp])).
Proof.
  intros Hb Hcap Hs. apply chat_success_iff in Hs as [[ctx docs] Hr].
  pose proof (chat_memory cosine_similarity argsort format_percent repr_dict str_upper str_strip
                rag_engine llm_engine requests_post time_time datetime_now uuid4 request w) as H.
  destruct (ChatSpec.session_of uuid4 request w) as [sid n].
  destruct (chat request w) as [resp w']. rewrite Hr in H.
  destruct H as (_ & _ & Hconv & _). cbn [fst snd].
  destruct (deque_of_bounded (memory w) sid Hb) as (Hmax & Hlen & _).
  set (mu := ChatSpec.user_message datetime_now request n) in *.
  set (ma := ChatSpec.assistant_message datetime_now (response resp) n) in *.
  assert (Hhist : exists earlier, get_conversation_history (memory w') sid = earlier ++ [mu; ma]).
  { unfold get_conversation_history. rewrite Hconv, lookup_insert_eq.
    rewrite deque_append_items.
    2: { cbn [deque_append maxlen]. rewrite deque_append_items by lia.
         rewrite Hmax. apply last_n_length. }
    cbn [deque_append maxlen]. rewrite deque_append_items by lia.
    rewrite last_n_app_last_n, <- app_assoc. cbn [app].
    apply last_n_keeps_suffix. cbn. lia. }
  split; [exact Hhist|].
  destruct Hhist as [earlier Hh].
  rewrite format_history_positive by lia. rewrite Hh.
  destruct (last_n_keeps_suffix (Z.to_nat 5) earlier [mu; ma]) as [pre' Hpre];
    [cbn; lia|].
  rewrite Hpre.
  destruct (earlier ++ [mu; ma]) eqn:Enil.
  { destruct earlier; discriminate. }
  exists ("Previous conversation:" :: map format_line pre').
  rewrite map_app. reflexivity.
Qed.

(** What a successful [chat] leaves for the next request of the session:
    with room for two messages, the history ends with the user message
    and the reply, and the transcript the next [chat] will read ends
    with their two lines. *)
Theorem chat_history_carries_over (request : ChatRequest) (w : World) :
  Spec.bounded (memory w) ->
  2 <= max_messages (memory w) ->
  success (fst (chat request w)) = true ->
  let session_id := fst (ChatSpec.session_of uuid4 request w) in
  let resp := fst (chat request w) in
  let m' := memory (snd (chat request w)) in
  (exists earlier,
     get_conversation_history m' session_id
     = earlier ++ [ChatSpec.user_message datetime_now request
                     (snd (ChatSpec.session_of uuid4 request w));
                   ChatSpec.assistant_message datetime_now (response resp)
                     (snd (ChatSpec.session_of uuid4 request w))])
  /\ (exists lines,
        format_history_for_prompt m' session_id 5
        = Py.join Py.nl (lines ++ ["User: " +:+ message request;
                                   "Assistant: " +:+ response resp])).
Proof. exact (chat_history_suffix request w). Qed.

(** The session endpoint answers 404 exactly for an empty history: it
    does so right after the session is cleared, and it returns a history
    ending with the reply right after a successful [chat]. *)
Theorem get_session_after_chat_and_clear (request : ChatRequest) (w : World) :
  Spec.bounded (memory w) ->
  2 <= max_messages (memory w) ->
  success (fst (chat request w)) = true ->
  let session_id := fst (ChatSpec.session_of uuid4 request w) in
  let m' := memory (snd (chat request w)) in
  (exists h, App.get_session m' session_id = Py.Returned h
             /\ content <$> last h = Some (response (fst (chat request w))))
  /\ App.get_session (fst (App.clear_session m' session_id)) session_id
     = Py.Raised "404: Not found".
Proof.
  intros Hb Hcap Hs.
  destruct (chat_history_suffix request w Hb Hcap Hs) as [[earlier Hh] _].
  cbn zeta in *. split.
  - unfold App.get_session. rewrite Hh.
    match goal with |- context [earlier ++ [?mu; ?ma]] =>
      assert (Hlast : last (earlier ++ [mu; ma]) = Some ma)
        by (replace (earlier ++ [mu; ma]) with ((earlier ++ [mu]) ++ [ma])
              by (rewrite <- app_assoc; reflexivity);
            apply last_snoc)
    end.
    destruct (earlier ++ _) eqn:E; [destruct earlier; discriminate|].
    eexists. split; [reflexivity|]. rewrite Hlast. reflexivity.
  - unfold App.get_session, App.clear_session, get_conversation_history. cbn [fst].
    rewrite clear_session_conversations, lookup_delete_eq. reflexivity.
Qed.

End ChatMore.

(** ** The two loaders *)

Section LoadersAgree.

Variable fs : string -> Py.json_file.

Lemma faq_documents_agree (faq : Py.dict) :
  delete "metadata" (Database.faq_document faq)
  = delete "metadata" (KnowledgeBase.faq_document faq).
Proof.
  unfold Database.faq_document, KnowledgeBase.faq_document.
  rewrite !(delete_insert_ne _ "metadata") by discriminate.
  rewrite !delete_insert_eq. reflexivity.
Qed.

Lemma policy_documents_agree (policy : Py.dict) :
  delete "metadata" (Database.policy_document policy)
  = delete "metadata" (KnowledgeBase.policy_document policy).
Proof.
  unfold Database.policy_document, KnowledgeBase.policy_document.
  rewrite !(delete_insert_ne _ "metadata") by discriminate.
  rewrite !delete_insert_eq. reflexivity.
Qed.

(** The loaders of database.py and knowledge_base.py do the same on the
    same directory: they succeed or fail together, keep the same FAQ and
    policy entries, and prepare documents that differ in their
    [metadata] entry only. *)
Theorem loaders_agree (a : Database.KnowledgeBase) (b : KnowledgeBase.KnowledgeBase) :
  Database.data_dir a = KnowledgeBase.data_dir b ->
  Database.faqs a = KnowledgeBase.faqs b ->
  Database.policies a = KnowledgeBase.policies b ->
  delete "metadata" <$> Database.all_documents a
    = delete "metadata" <$> KnowledgeBase.all_documents b ->
  let a' := Database.load_data fs a in
  let b' := KnowledgeBase.load_data fs b in
  fst a' = fst b'
  /\ Database.faqs (snd a') = KnowledgeBase.faqs (snd b')
  /\ Database.policies (snd a') = KnowledgeBase.policies (snd b')
  /\ delete "metadata" <$> Database.all_documents (snd a')
     = delete "metadata" <$> KnowledgeBase.all_documents (snd b').
Proof.
  intros Hdir Hf Hp Hdocs. cbn zeta.
  unfold Database.load_data, KnowledgeBase.load_data. rewrite <- Hdir.
  destruct (fs (Py.path_join (Database.data_dir a) "faqs.json")) as [| |f];
    cbn; auto.
  destruct (fs (Py.path_join (Database.data_dir a) "policies.json")) as [| |p];
    cbn; auto.
  repeat split.
  unfold Database._prepare_documents, KnowledgeBase._prepare_documents. cbn.
  rewrite !fmap_app. f_equal.
  - rewrite <- !list_fmap_compose. apply list_fmap_ext. intros i e _. cbn.
    apply faq_documents_agree.
  - rewrite <- !list_fmap_compose. apply list_fmap_ext. intros i e _. cbn.
    apply policy_documents_agree.
Qed.

End LoadersAgree.

(** ** Initialisation of the index *)

Section InitializeFacts.

Import RagEngine.

Context {embedding bytes : Type}.
Variable SentenceTransformer : string -> Py.outcome (string -> embedding).
Variable encode_texts : (string -> embedding) -> list Py.value -> Py.outcome (list embedding).
Variable fs : string -> Py.json_file.
Variable pickle_dumps : @Snapshot embedding -> bytes.
Variable pickle_loads : bytes -> option (@Loaded embedding).

Local Abbreviation initialize :=
  (RagEngine.initialize SentenceTransformer encode_texts fs pickle_dumps pickle_loads).

(** A snapshot of the engine's model name wins over the knowledge base:
    when the model loads, the knowledge base loads and [vectors.pkl]
    holds a snapshot under the same model name, [initialize] succeeds
    and serves the documents and vectors of the snapshot, whatever the
    knowledge base on disk holds now; the file is left as it is and the
    encoder is not run. *)
Theorem initialize_snapshot_wins (self : RAGEngine) (kb : Database.KnowledgeBase)
    (b : bytes) (data : Snapshot) (m : string -> embedding) :
  SentenceTransformer (model_name self) = Py.Returned m ->
  fst (Database.load_data fs kb) = true ->
  pickle_loads b = Some (complete data) ->
  snapshot_model_name data = model_name self ->
  initialize self kb (Some b)
  = (true, (mkRAG (model_name self) (Some m) (snapshot_embeddings data)
              (snapshot_documents data),
            snd (Database.load_data fs kb), Some b)).
Proof.
  intros Hm Hkb Hb Hname. unfold RagEngine.initialize. rewrite Hm.
  destruct (Database.load_data fs kb) as [ok kb'] eqn:E. cbn in Hkb. subst ok.
  cbn [negb model_name model embeddings]. unfold _load_vector_store.
  rewrite Hb. cbn [complete loaded_model_name loaded_embeddings loaded_documents model_name model].
  rewrite Hname, String.eqb_refl. reflexivity.
Qed.

Lemma contents_length (docs : list Py.object) (texts : list Py.value) :
  contents docs = Py.Returned texts -> length texts = length docs.
Proof.
  revert texts. induction docs as [|doc docs IH]; intros texts; cbn.
  - intros [= <-]. reflexivity.
  - destruct (Py.getitem doc "content"); [|discriminate].
    destruct (contents docs) as [vs|]; [|discriminate].
    intros [= <-]. cbn. rewrite (IH vs eq_refl). reflexivity.
Qed.

(** The encoder gives one vector for each text. *)
Hypothesis encode_texts_length :
  forall m texts vectors,
    encode_texts m texts = Py.Returned vectors -> length vectors = length texts.

Lemma build_vector_store_lengths (self self' : RAGEngine) :
  _build_vector_store encode_texts self = Py.Returned self' ->
  documents self' = documents self
  /\ model_name self' = model_name self
  /\ model self' = model self
  /\ exists vectors, embeddings self' = Some vectors
                     /\ length vectors = length (documents self).
Proof.
  unfold _build_vector_store. destruct (documents self) as [|doc docs] eqn:Ed.
  - intros [= <-]. cbn. repeat split. exists []. split; reflexivity.
  - destruct (contents (doc :: docs)) as [texts|] eqn:Ec; [|discriminate].
    destruct (model self) as [m|]; [|discriminate].
    destruct (encode_texts m texts) as [vectors|] eqn:Ee; [|discriminate].
    intros [= <-]. cbn. repeat split; try assumption.
    exists vectors. split; [reflexivity|].
    rewrite (encode_texts_length _ _ _ Ee). apply (contents_length (doc :: docs)), Ec.
Qed.

(** What a successful [initialize] without a snapshot file has done. *)
Lemma initialize_built (self self' : RAGEngine) (kb kb' : Database.KnowledgeBase)
    (file' : option bytes) :
  initialize self kb None = (true, (self', kb', file')) ->
  kb' = snd (Database.load_data fs kb)
  /\ documents self' = Database.get_all_documents kb'
  /\ (exists vectors, embeddings self' = Some vectors
                      /\ length vectors = length (documents self'))
  /\ file' = _save_vector_store pickle_dumps self'.
Proof.
  unfold RagEngine.initialize.
  destruct (SentenceTransformer (model_name self)) as [m|]; [|discriminate].
  destruct (Database.load_data fs kb) as [ok kb1]. destruct ok; cbn [negb]; [|discriminate].
  cbn [_load_vector_store].
  destruct (_build_vector_store encode_texts _) as [built|] eqn:Eb; [|discriminate].
  intros [= <- <- <-].
  apply build_vector_store_lengths in Eb as (Hd & _ & _ & vectors & He & Hl).
  cbn [documents] in Hd, Hl. cbn [snd].
  split; [reflexivity|]. split; [exact Hd|]. split; [|reflexivity].
  exists vectors. split; [exact He|]. rewrite Hd. exact Hl.
Qed.

(** When there is no snapshot file, a successful [initialize] has built
    the index from the loaded knowledge base: the engine serves the
    documents of the knowledge base with one vector for each, and the
    file now holds the snapshot of exactly that state. *)
Theorem initialize_fresh_build (self self' : RAGEngine) (kb kb' : Database.KnowledgeBase)
    (file' : option bytes) :
  initialize self kb None = (true, (self', kb', file')) ->
  kb' = snd (Database.load_data fs kb)
  /\ documents self' = Database.get_all_documents kb'
  /\ (exists vectors, embeddings self' = Some vectors
                      /\ length vectors = length (documents self'))
  /\ file' = _save_vector_store pickle_dumps self'.
Proof. exact (initialize_built self self' kb kb' file'). Qed.

(** [pickle.load] gives back what [pickle.dump] was given. *)
Hypothesis pickle_roundtrip :
  forall data, pickle_loads (pickle_dumps data) = Some (complete data).

(** A restart reuses the index: after a successful [initialize] from an
    absent snapshot file, initialising a new engine of the same model
    name on the file left behind succeeds with the same engine state,
    without running the encoder. *)
Theorem initialize_restart (self self' again : RAGEngine)
    (kb kb' other : Database.KnowledgeBase) (file' : option bytes) :
  initialize self kb None = (true, (self', kb', file')) ->
  model_name again = model_name self ->
  Database.data_dir other = Database.data_dir kb ->
  initialize again other file' = (true, (self', kb', file')).
Proof.
  intros Hinit Hname Hdir.
  pose proof (initialize_built self self' kb kb' file' Hinit) as (Hkb & Hdocs & _ & Hfile).
  revert Hinit. unfold RagEngine.initialize. rewrite Hname.
  destruct (SentenceTransformer (model_name self)) as [m|]; [|discriminate].
  destruct (Database.load_data fs kb) as [ok kb1] eqn:Ekb.
  destruct ok; cbn [negb]; [|discriminate].
  cbn [_load_vector_store].
  destruct (_build_vector_store encode_texts _) as [built|] eqn:Eb; [|discriminate].
  intros [= <- <- <-].
  apply build_vector_store_lengths in Eb as (Hd & Hn & Hmod & _).
  cbn [documents model_name model] in Hd, Hn, Hmod.
  assert (Hload : Database.load_data fs other = (true, kb1)).
  { revert Ekb. unfold Database.load_data. rewrite Hdir.
    destruct (fs (Py.path_join (Database.data_dir kb) "faqs.json")) as [| |f];
      cbn; try discriminate.
    destruct (fs (Py.path_join (Database.data_dir kb) "policies.json")) as [| |p];
      cbn; try discriminate.
    intros [= <-]. reflexivity. }
  rewrite Hload. cbn [negb].
  unfold _load_vector_store, _save_vector_store. rewrite pickle_roundtrip.
  cbn [complete loaded_model_name loaded_embeddings loaded_documents
       snapshot_model_name snapshot_embeddings snapshot_documents model_name model].
  rewrite Hn, String.eqb_refl. cbn [negb].
  destruct built as [n' m' e' d']. cbn in *. subst. reflexivity.
Qed.

End InitializeFacts.

(** ** Instances *)

Lemma sample_world_bounded : Spec.bounded (Memory.memory sample_world).
Proof. exact (bounded_init 10). Qed.

Lemma busy_world_bounded : Spec.bounded (Memory.memory busy_world).
Proof.
  exact (proj1 (add_messages_history sample_now busy_calls sample_world sample_world_bounded)).
Qed.

Lemma busy_world_capacity : Memory.max_messages (Memory.memory busy_world) = 10.
Proof. vm_compute. reflexivity. Qed.

Lemma get_last_n_messages_nonpositive_witness :
  (-1 <= 0)%Z
  /\ Memory.content <$> Memory.get_last_n_messages (Memory.memory busy_world) "s1" (-1)
     = ["hello"; "bye"].
Proof.
  split; [lia|].
  rewrite (get_last_n_messages_nonpositive (Memory.memory busy_world) "s1" (-1) ltac:(lia)).
  vm_compute. reflexivity.
Defined.

Lemma add_message_frame_witness :
  "s2" <> "s1"
  /\ Memory.content <$>
       Memory.get_conversation_history
         (Memory.memory (snd (Memory.add_message sample_now "s1" "user" "again" None busy_world)))
         "s2"
     = ["hey"]
  /\ length (Memory.analytics_log
               (Memory.memory
                  (snd (Memory.add_message sample_now "s1" "user" "again" None busy_world))))
     = 5.
Proof.
  assert (H : "s2" <> "s1") by discriminate.
  split; [exact H|].
  destruct (add_message_frame sample_now "s1" "user" "again" None "s2" busy_world H)
    as (_ & Hh & entry & Hlog).
  split.
  - rewrite Hh. vm_compute. reflexivity.
  - rewrite Hlog, length_app. vm_compute. reflexivity.
Defined.

Lemma add_message_after_clear_witness :
  1 <= Memory.max_messages (Memory.memory busy_world)
  /\ Memory.content <$> Memory.get_conversation_history (Memory.memory busy_world) "s1"
     = ["hi"; "hello"; "bye"]
  /\ Memory.content <$>
       Memory.get_conversation_history
         (Memory.memory
            (snd (Memory.add_message sample_now "s1" "user" "again" None
                    (Memory.mkWorld (Memory.ticks busy_world)
                       (Memory.clear_session (Memory.memory busy_world) "s1")))))
         "s1"
     = ["again"]
  /\ length (Memory.analytics_log
               (Memory.memory
                  (snd (Memory.add_message sample_now "s1" "user" "again" None
                          (Memory.mkWorld (Memory.ticks busy_world)
                             (Memory.clear_session (Memory.memory busy_world) "s1"))))))
     = 5.
Proof.
  assert (H : 1 <= Memory.max_messages (Memory.memory busy_world))
    by (rewrite busy_world_capacity; lia).
  split; [exact H|]. split; [vm_compute; reflexivity|].
  destruct (add_message_after_clear sample_now "s1" "user" "again" None busy_world H)
    as (Hh & entry & Hlog).
  split.
  - rewrite Hh. reflexivity.
  - rewrite Hlog, length_app. vm_compute. reflexivity.
Defined.

Lemma format_history_last_n_witness :
  (1 <= 1)%Z
  /\ Memory.format_history_for_prompt (Memory.memory busy_world) "s1" 1
     = "Previous conversation:" +:+ Py.nl +:+ "User: bye".
Proof.
  split; [lia|].
  rewrite (format_history_last_n (Memory.memory busy_world) "s1" 1 ltac:(lia)).
  vm_compute. reflexivity.
Defined.

Lemma ask_llm_unconfigured_witness :
  Py.truthy (LlmEngine.api_key keyless_engine) = false
  /\ LlmEngine.ask_llm Py.ascii_upper Py.ascii_strip echo_service keyless_engine
       ("system", "user") (7 # 10)%Q 500
     = LlmEngine.ask_llm Py.ascii_upper Py.ascii_strip unreachable keyless_engine
         ("system", "user") (7 # 10)%Q 500
  /\ LlmEngine.error
       (LlmEngine.ask_llm Py.ascii_upper Py.ascii_strip echo_service keyless_engine
          ("system", "user") (7 # 10)%Q 500)
     = Some "OPENAI_API_KEY not configured".
Proof.
  split; [reflexivity|].
  destruct (ask_llm_unconfigured Py.ascii_upper Py.ascii_strip echo_service unreachable
              keyless_engine ("system", "user") (7 # 10)%Q 500 eq_refl) as [H1 H2].
  split; [exact H1|]. rewrite H2. reflexivity.
Defined.

(** A snapshot file without documents: the load fails, and the engine
    has the vectors of the file with the documents it had. *)
Lemma load_vector_store_partial :
  RagEngine._load_vector_store
    (fun _ : unit =>
       Some (RagEngine.mkLoaded (Some "all-MiniLM-L6-v2") (Some (Some [(5, 5)%Z])) None))
    twin_engine (Some tt)
  = (false,
     RagEngine.mkRAG (RagEngine.model_name twin_engine) (RagEngine.model twin_engine)
       (Some [(5, 5)%Z]) (RagEngine.documents twin_engine)).
Proof. reflexivity. Qed.

Lemma load_data_replaces_witness :
  Database.data_dir (Database.init "./data") = Database.data_dir loaded_store
  /\ fst (Database.load_data full_disk (Database.init "./data")) = true
  /\ Database.load_data full_disk loaded_store
     = Database.load_data full_disk (Database.init "./data").
Proof.
  split; [reflexivity|]. split; [reflexivity|].
  exact (proj1 (load_data_replaces full_disk (Database.init "./data") loaded_store
                  eq_refl eq_refl)).
Defined.

Lemma loaded_faq_ids : NoDup ((fun e => Py.get e "id" "NA") <$> Database.faqs loaded_store).
Proof.
  change (NoDup ["1"; "2"]). apply NoDup_cons. split.
  - intros H. apply list_elem_of_singleton in H. discriminate.
  - apply NoDup_singleton.
Qed.

Lemma loaded_policy_ids :
  NoDup ((fun e => Py.get e "id" "NA") <$> Database.policies loaded_store).
Proof. change (NoDup ["1"]). apply NoDup_singleton. Qed.



Lemma loaders_agree_witness :
  Database.data_dir (Database.init "./data") = KnowledgeBase.data_dir KnowledgeBase.kb
  /\ fst (Database.load_data full_disk (Database.init "./data"))
     = fst (KnowledgeBase.load_data full_disk KnowledgeBase.kb).
Proof.
  split; [reflexivity|].
  exact (proj1 (loaders_agree full_disk (Database.init "./data") KnowledgeBase.kb
                  eq_refl eq_refl eq_refl eq_refl)).
Defined.

Lemma loaded_engine_lengths :
  length (RagEngine.documents loaded_engine) = length [(1, 0)%Z; (0, 1)%Z; (1, 1)%Z].
Proof. reflexivity. Qed.

Lemma retrieve_context_count_witness :
  Spec.permutes sample_argsort
  /\ RagEngine.model loaded_engine = Some axis_encoder
  /\ RagEngine.embeddings loaded_engine = Some [(1, 0)%Z; (0, 1)%Z; (1, 1)%Z]
  /\ length (RagEngine.retrieve_context dot sample_argsort loaded_engine "password" 2) = 2.
Proof.
  split; [exact (proj1 sample_argsort_sorts)|]. split; [reflexivity|]. split; [reflexivity|].
  exact (retrieve_context_count dot sample_argsort loaded_engine "password" 2 axis_encoder
           [(1, 0)%Z; (0, 1)%Z; (1, 1)%Z] (proj1 sample_argsort_sorts)
           eq_refl eq_refl loaded_engine_lengths).
Defined.

Lemma retrieve_context_highest_witness :
  Spec.sorts Z.leb sample_argsort
  /\ RagEngine.model loaded_engine = Some axis_encoder
  /\ exists positions : list nat,
       Forall2 (fun i r =>
                  RagEngine.documents loaded_engine !! i = Some (RagEngine.document r)
                  /\ Spec.scores dot loaded_engine "password" !! i
                     = Some (RagEngine.result_score r))
         positions (RagEngine.retrieve_context dot sample_argsort loaded_engine "password" 2)
       /\ forall i s, Spec.scores dot loaded_engine "password" !! i = Some s ->
            i ∉ positions ->
            Forall (fun r => (s <=? RagEngine.result_score r)%Z = true)
              (RagEngine.retrieve_context dot sample_argsort loaded_engine "password" 2).
Proof.
  split; [exact sample_argsort_sorts|]. split; [reflexivity|].
  exact (retrieve_context_highest dot Z.leb sample_argsort loaded_engine "password" 2
           axis_encoder [(1, 0)%Z; (0, 1)%Z; (1, 1)%Z] sample_argsort_sorts
           eq_refl eq_refl loaded_engine_lengths).
Defined.

Lemma loaded_engine_ids :
  NoDup ((fun doc : Py.object => doc !! "id") <$> RagEngine.documents loaded_engine).
Proof.
  exact (proj1 (prepared_ids_NoDup loaded_store loaded_faq_ids loaded_policy_ids)).
Qed.

Lemma retrieve_context_distinct_ids_witness :
  Spec.sorts Z.leb sample_argsort
  /\ (1 <= 2)%Z
  /\ NoDup ((fun r => RagEngine.document r !! "id") <$>
              RagEngine.retrieve_context dot sample_argsort loaded_engine "password" 2).
Proof.
  split; [exact sample_argsort_sorts|]. split; [lia|].
  exact (retrieve_context_distinct_ids dot Z.leb sample_argsort sample_argsort_sorts
           loaded_engine "password" 2 ltac:(lia) loaded_engine_ids).
Defined.

Lemma context_block_always_present_witness :
  RagEngine.format_context sample_percent sample_repr Py.ascii_upper []
  = Py.Returned "No relevant information found."
  /\ "No relevant information found." <> EmptyString.
Proof.
  assert (H : RagEngine.format_context sample_percent sample_repr Py.ascii_upper []
              = Py.Returned "No relevant information found.") by reflexivity.
  split; [exact H|].
  exact (proj1 (context_block_always_present sample_percent sample_repr Py.ascii_upper []
                  "No relevant information found." "hello" "default" H)).
Defined.

Lemma get_relevant_context_after_load_witness :
  fst (Database.load_data full_disk (Database.init "./data")) = true
  /\ exists formatted,
       RagEngine.get_relevant_context dot sample_argsort sample_percent sample_repr
         Py.ascii_upper loaded_engine "password" 2
       = Py.Returned (formatted,
                      RagEngine.retrieve_context dot sample_argsort loaded_engine "password" 2).
Proof.
  split; [reflexivity|].
  exact (get_relevant_context_after_load dot sample_argsort sample_percent sample_repr
           Py.ascii_upper full_disk (Database.init "./data") loaded_engine "password" 2
           eq_refl eq_refl).
Defined.

Lemma loaded_engine_well_formed : Forall Spec.well_formed (RagEngine.documents loaded_engine).
Proof. exact (prepared_well_formed loaded_store). Qed.

Lemma chat_never_fails_witness :
  Forall Spec.well_formed (RagEngine.documents loaded_engine)
  /\ App.success (fst (sample_chat sample_request sample_world)) = true.
Proof.
  split; [exact loaded_engine_well_formed|].
  exact (chat_never_fails dot sample_argsort sample_percent sample_repr
           Py.ascii_upper Py.ascii_strip loaded_engine groq_engine
           unreachable sample_time sample_now sample_uuid sample_request sample_world
           (or_intror loaded_engine_well_formed)).
Defined.

Lemma sample_chat_succeeds : App.success (fst (sample_chat sample_request sample_world)) = true.
Proof. vm_compute. reflexivity. Qed.

Lemma chat_appends_two_messages_four_records_witness :
  Spec.bounded (Memory.memory busy_world)
  /\ 2 <= Memory.max_messages (Memory.memory busy_world)
  /\ 2 * length [sample_request; sample_request] <= 10
  /\ (exists earlier,
        Memory.content <$>
          Memory.get_conversation_history
            (Memory.memory (snd (sample_chat sample_request busy_world))) "s1"
        = earlier ++ ["How do I reset my password?";
                      App.response (fst (sample_chat sample_request busy_world))])
  /\ (let (resps, w') :=
        App.chats dot sample_argsort sample_percent sample_repr Py.ascii_upper Py.ascii_strip
          loaded_engine groq_engine unreachable sample_time sample_now sample_uuid
          [sample_request; sample_request] (Memory.mkWorld 0 (Memory.init 10)) in
      let held_messages := ChatSpec.stored_messages (Memory.memory w') in
      held_messages = 2 * ChatSpec.successes resps
      /\ Memory.get_analytics_summary (Memory.memory w')
         = Memory.mkSummary (2 * held_messages) held_messages held_messages).
Proof.
  assert (Hcap : 2 <= Memory.max_messages (Memory.memory busy_world))
    by (rewrite busy_world_capacity; lia).
  assert (Hroom : 2 * length [sample_request; sample_request] <= 10) by (cbn; lia).
  split; [exact busy_world_bounded|]. split; [exact Hcap|]. split; [exact Hroom|].
  destruct (chat_appends_two_messages_four_records dot sample_argsort sample_percent
              sample_repr Py.ascii_upper Py.ascii_strip loaded_engine groq_engine unreachable
              sample_time sample_now sample_uuid sample_request busy_world
              [sample_request; sample_request] 0 10 busy_world_bounded Hcap Hroom)
    as (HA & _ & HC & _).
  split; [|exact HC].
  assert (Hs : App.success (fst (sample_chat sample_request busy_world)) = true)
    by (vm_compute; reflexivity).
  destruct (proj1 (chat_success_iff dot sample_argsort sample_percent sample_repr
                     Py.ascii_upper Py.ascii_strip loaded_engine groq_engine unreachable
                     sample_time sample_now sample_uuid sample_request busy_world) Hs)
    as [[ctx docs] Er].
  unfold sample_chat.
  change (ChatSpec.session_of sample_uuid sample_request busy_world)
    with ("s1", S (Memory.ticks busy_world)) in HA.
  destruct (App.chat _ _ _ _ _ _ _ _ _ _ _ _ sample_request busy_world) as [resp w'].
  rewrite Er in HA.
  destruct HA as (_ & _ & _ & [earlier He] & _).
  exists (Memory.content <$> earlier). cbn [fst snd]. rewrite He, fmap_app. reflexivity.
Defined.

Lemma chat_history_carries_over_witness :
  2 <= Memory.max_messages (Memory.memory sample_world)
  /\ App.success (fst (sample_chat sample_request sample_world)) = true
  /\ exists lines,
       Memory.format_history_for_prompt
         (Memory.memory (snd (sample_chat sample_request sample_world)))
         (fst (ChatSpec.session_of sample_uuid sample_request sample_world)) 5
       = Py.join Py.nl
           (lines ++ ["User: " +:+ App.message sample_request;
                      "Assistant: "
                      +:+ App.response (fst (sample_chat sample_request sample_world))]).
Proof.
  assert (Hcap : 2 <= Memory.max_messages (Memory.memory sample_world)) by (cbn; lia).
  split; [exact Hcap|]. split; [exact sample_chat_succeeds|].
  exact (proj2 (chat_history_carries_over dot sample_argsort sample_percent sample_repr
                  Py.ascii_upper Py.ascii_strip loaded_engine
                  groq_engine unreachable sample_time sample_now sample_uuid
                  sample_request sample_world sample_world_bounded Hcap
                  sample_chat_succeeds)).
Defined.

Lemma get_session_after_chat_and_clear_witness :
  2 <= Memory.max_messages (Memory.memory sample_world)
  /\ App.get_session
       (fst (App.clear_session
               (Memory.memory (snd (sample_chat sample_request sample_world)))
               (fst (ChatSpec.session_of sample_uuid sample_request sample_world))))
       (fst (ChatSpec.session_of sample_uuid sample_request sample_world))
     = Py.Raised "404: Not found".
Proof.
  assert (Hcap : 2 <= Memory.max_messages (Memory.memory sample_world)) by (cbn; lia).
  split; [exact Hcap|].
  exact (proj2 (get_session_after_chat_and_clear dot sample_argsort sample_percent sample_repr
                  Py.ascii_upper Py.ascii_strip
                  loaded_engine groq_engine unreachable sample_time sample_now sample_uuid
                  sample_request sample_world sample_world_bounded Hcap
                  sample_chat_succeeds)).
Defined.

Lemma encode_each_length (m : string -> Z * Z) (texts : list Py.value) (vectors : list (Z * Z)) :
  encode_each m texts = Py.Returned vectors -> length vectors = length texts.
Proof. intros [= <-]. apply length_map. Qed.

Lemma initialize_snapshot_wins_witness :
  fst (Database.load_data full_disk (Database.init "./data")) = true
  /\ RagEngine.snapshot_model_name twin_snapshot = RagEngine.model_name fresh_engine
  /\ sample_initialize fresh_engine (Database.init "./data") (Some twin_snapshot)
     = (true, (RagEngine.mkRAG "all-MiniLM-L6-v2" (Some axis_encoder)
                 (RagEngine.embeddings twin_engine) (RagEngine.documents twin_engine),
               loaded_store, Some twin_snapshot)).
Proof.
  split; [reflexivity|]. split; [reflexivity|].
  exact (initialize_snapshot_wins load_axis_model encode_each full_disk id
           (fun data => Some (RagEngine.complete data))
           fresh_engine (Database.init "./data") twin_snapshot twin_snapshot axis_encoder
           eq_refl eq_refl eq_refl eq_refl).
Defined.

Lemma sample_initialize_fresh :
  sample_initialize fresh_engine (Database.init "./data") None
  = (true, (loaded_engine_built, loaded_store,
            RagEngine._save_vector_store id loaded_engine_built)).
Proof. vm_compute. reflexivity. Qed.

Lemma initialize_fresh_build_witness :
  sample_initialize fresh_engine (Database.init "./data") None
  = (true, (loaded_engine_built, loaded_store,
            RagEngine._save_vector_store id loaded_engine_built))
  /\ RagEngine.documents loaded_engine_built = Database.get_all_documents loaded_store.
Proof.
  split; [exact sample_initialize_fresh|].
  exact (proj1 (proj2 (initialize_fresh_build load_axis_model encode_each full_disk id
                         (fun data => Some (RagEngine.complete data))
                         encode_each_length fresh_engine loaded_engine_built
                         (Database.init "./data") loaded_store _ sample_initialize_fresh))).
Defined.

Lemma initialize_restart_witness :
  sample_initialize fresh_engine (Database.init "./data") None
  = (true, (loaded_engine_built, loaded_store,
            RagEngine._save_vector_store id loaded_engine_built))
  /\ sample_initialize fresh_engine (Database.init "./data")
       (RagEngine._save_vector_store id loaded_engine_built)
     = (true, (loaded_engine_built, loaded_store,
               RagEngine._save_vector_store id loaded_engine_built)).
Proof.
  split; [exact sample_initialize_fresh|].
  exact (initialize_restart load_axis_model encode_each full_disk id
           (fun data => Some (RagEngine.complete data))
           encode_each_length (fun data => eq_refl) fresh_engine loaded_engine_built
           fresh_engine (Database.init "./data") loaded_store (Database.init "./data") _
           sample_initialize_fresh eq_refl eq_refl).
Defined.
